(** * PoWA background worker and statistics extractor (powa.c)

    A shallow embedding of [powa.c]:
    - [Scheduler]: [die_on_too_small_frequency], [powa_sighup] and the
      main loop of [powa_main], as a step function over the program
      points of [powa_main];
    - [Extractor]: [powa_stat_common] and its two entry points, in a
      state-and-error monad over the backend's statistics state. *)

From Stdlib Require Import ZArith List Lia Bool String.
From Stdlib Require SpecFloat.
From stdpp Require Import base list.
Import ListNotations.

Local Open Scope Z_scope.

(* ===================================================================== *)
(** * The snapshot scheduler: [powa_main]                                 *)
(* ===================================================================== *)

Module Scheduler.

(** [static int min_powa_frequency = 5000;] (never assigned afterwards). *)
Definition min_powa_frequency : Z := 5000.

(** What the worker does that is visible from outside, newest first. *)
Inductive Event :=
| LogTooSmall (min : Z)      (* "POWA frequency cannot be smaller than %i milliseconds" *)
| LogDeactivated (freq : Z)  (* "POWA is deactivated (powa.frequency = %i), exiting" *)
| LogExitToDisconnect        (* "POWA exits to disconnect from the database now" *)
| Connect                    (* BackgroundWorkerInitializeConnection .. SET application_name *)
| TakeSnapshot               (* SPI_execute("SELECT powa_take_snapshot()") *)
| WaitLatch (timeout : Z).   (* WaitLatch(.., WL_TIMEOUT | .., time_to_wait) *)

(** An [instr_time] difference, held in microseconds (the resolution of
    the host's clock reading, [INSTR_TIME_SET_CURRENT]). *)
Definition instr_time := Z.

(** The program points of [powa_main] between which a signal handler can
    run, and the terminal point reached through [exit]. *)
Inductive Loc :=
| AtStart                       (* l.156: die_on_too_small_frequency() *)
| AtDeactivatedCheck            (* l.167: if (powa_frequency < 0) *)
| AtConnect                     (* l.179-192 *)
| AtLoopTop                     (* l.207: if (powa_frequency < 0) *)
| AtSnapshot                    (* l.217-230 *)
| AtCompute (e : instr_time)    (* l.238-240, [e] is [end] after INSTR_TIME_SUBTRACT *)
| AtWaitLatch (time_to_wait : Z)(* l.253 *)
| Exited (status : Z).          (* exit(status) *)

Record Worker := mkWorker {
  powa_frequency : Z;   (* static int powa_frequency, the GUC powa.frequency *)
  loc : Loc;
  events : list Event
}.

Definition goto (l : Loc) (w : Worker) : Worker :=
  mkWorker (powa_frequency w) l (events w).

Definition emit (e : Event) (w : Worker) : Worker :=
  mkWorker (powa_frequency w) (loc w) (e :: events w).

Definition exit (status : Z) (w : Worker) : Worker := goto (Exited status) w.

Definition exited (w : Worker) : bool :=
  match loc w with Exited _ => true | _ => false end.

(** [die_on_too_small_frequency]: the process is left alone unless the
    interval is positive and below the floor. *)
Definition die_on_too_small_frequency (w : Worker) : Worker :=
  if (0 <? powa_frequency w) && (powa_frequency w <? min_powa_frequency)
  then exit 1 (emit (LogTooSmall min_powa_frequency) w)
  else w.

(** [ProcessConfigFile(PGC_SIGHUP)], for what this file reads of it: the
    variable bound to powa.frequency takes the value the configuration
    now holds. *)
Definition ProcessConfigFile (reloaded : Z) (w : Worker) : Worker :=
  mkWorker reloaded (loc w) (events w).

(** [powa_sighup]: reload, then the floor check. *)
Definition powa_sighup (reloaded : Z) (w : Worker) : Worker :=
  die_on_too_small_frequency (ProcessConfigFile reloaded w).

(** l.238: [time_to_wait = powa_frequency - INSTR_TIME_GET_MILLISEC(end)].
    [time_to_wait] is a [long]; [INSTR_TIME_GET_MILLISEC] is the host's
    macro (portability/instr_time.h) and yields the elapsed time as a
    [double] number of milliseconds, fractions included.  The difference
    is therefore taken in [double] and converted to [long] by the
    assignment, which in C discards the fractional part (rounds toward
    zero).  With the elapsed time held in microseconds this is the
    quotient below; the rounding of the [double] operations themselves
    is far below one microsecond for any duration a worker can measure
    and is not represented. *)
Definition time_to_wait (freq : Z) (e : instr_time) : Z :=
  Z.quot (freq * 1000 - e) 1000.

(** What the environment contributes to one step: a SIGHUP that arrives
    before the step runs (with the value powa.frequency has after the
    reload), and the time the snapshot takes if the step is the
    snapshot. *)
Record Input := mkInput {
  sighup : option Z;
  elapsed : instr_time
}.

(** The handler is installed and signals are unblocked at l.160-162,
    after the first floor check; a SIGHUP sent before that stays pending
    and is the input of a later step. *)
Definition deliver (i : Input) (w : Worker) : Worker :=
  match loc w, sighup i with
  | AtStart, _ => w
  | Exited _, _ => w
  | _, Some reloaded => powa_sighup reloaded w
  | _, None => w
  end.

(** The statements of [powa_main] at one program point. *)
Definition exec (i : Input) (w : Worker) : Worker :=
  match loc w with
  | AtStart =>
      let w' := die_on_too_small_frequency w in
      if exited w' then w' else goto AtDeactivatedCheck w'
  | AtDeactivatedCheck =>
      if powa_frequency w <? 0
      then exit 1 (emit (LogDeactivated (powa_frequency w)) w)
      else goto AtConnect w
  | AtConnect => goto AtLoopTop (emit Connect w)
  | AtLoopTop =>
      if powa_frequency w <? 0
      then exit 1 (emit LogExitToDisconnect w)
      else goto AtSnapshot w
  | AtSnapshot => goto (AtCompute (elapsed i)) (emit TakeSnapshot w)
  | AtCompute e =>
      let t := time_to_wait (powa_frequency w) e in
      if 0 <? t then goto (AtWaitLatch t) w else goto AtLoopTop w
  | AtWaitLatch t => goto AtLoopTop (emit (WaitLatch t) w)
  | Exited _ => w
  end.

Definition step (i : Input) (w : Worker) : Worker := exec i (deliver i w).

(** The worker driven by a sequence of inputs, one per step. *)
Fixpoint run (ins : list Input) (w : Worker) : Worker :=
  match ins with
  | [] => w
  | i :: ins' => run ins' (step i w)
  end.

(** The worker as the postmaster starts it. *)
Definition start (freq : Z) : Worker := mkWorker freq AtStart [].

Definition quiet (i : Input) : Prop := sighup i = None.

(** The worker is inside [while (true)]. *)
Definition in_loop (w : Worker) : Prop :=
  match loc w with
  | AtLoopTop | AtSnapshot | AtCompute _ | AtWaitLatch _ => True
  | _ => False
  end.

(** The worker runs with its handler installed. *)
Definition running (w : Worker) : Prop :=
  match loc w with
  | AtStart | Exited _ => False
  | _ => True
  end.

Definition snapshots (w : Worker) : nat :=
  length (List.filter (fun e => match e with TakeSnapshot => true | _ => false end)
                 (events w)).

Definition waits (w : Worker) : nat :=
  length (List.filter (fun e => match e with WaitLatch _ => true | _ => false end)
                 (events w)).

Definition connects (w : Worker) : nat :=
  length (List.filter (fun e => match e with Connect => true | _ => false end)
                 (events w)).

(** Every [exit] of the file passes status 1. *)
Definition exits_with_one (w : Worker) : Prop :=
  forall c, loc w = Exited c -> c = 1.

(** No reload arrives, and the clock did not run backwards. *)
Definition calm (i : Input) : Prop := quiet i /\ 0 <= elapsed i.

(** ** Vocabulary for the histories of the worker *)

(** The three messages logged on the way to [exit]. *)
Definition exit_log (e : Event) : Prop :=
  match e with
  | LogTooSmall _ | LogDeactivated _ | LogExitToDisconnect => True
  | _ => False
  end.

(** What the loop body does. *)
Definition loop_work (e : Event) : Prop :=
  match e with
  | TakeSnapshot | WaitLatch _ => True
  | _ => False
  end.

(** The shape of a history: nothing before the connection, then the
    connection followed by the work of the loop, and a last message if
    the process has exited. *)
Definition connected_history (evs : list Event) : Prop :=
  exists body, Forall loop_work body /\ evs = body ++ [Connect].

Definition history (w : Worker) : Prop :=
  match loc w with
  | AtStart | AtDeactivatedCheck | AtConnect => events w = []
  | Exited _ =>
      exists l rest, exit_log l /\ events w = l :: rest /\
                     (rest = [] \/ connected_history rest)
  | _ => connected_history (events w)
  end.

(** Every timeout handed to [WaitLatch], and the one about to be. *)
Definition positive_waits (w : Worker) : Prop :=
  Forall (fun e => match e with WaitLatch t => 0 < t | _ => True end) (events w) /\
  match loc w with AtWaitLatch t => 0 < t | _ => True end.

(** An interval the floor check lets through. *)
Definition passes_floor (freq : Z) : Prop :=
  ~ (0 < freq < min_powa_frequency).

(** The milliseconds spent in [WaitLatch] when every timeout ran out. *)
Definition total_wait (w : Worker) : Z :=
  fold_right (fun e acc => match e with WaitLatch t => t + acc | _ => acc end)
             0 (events w).

(** The inputs of one round of the loop in which no signal arrives and
    the snapshot takes [d] whole milliseconds: the check at the top, the
    snapshot, the computation of the wait, the wait. *)
Definition round (d : Z) : list Input :=
  [mkInput None 0; mkInput None (d * 1000); mkInput None 0; mkInput None 0].

End Scheduler.

(* ===================================================================== *)
(** * The statistics extractor: [powa_stat_common]                        *)
(* ===================================================================== *)

Module Extractor.

Definition Oid := Z.

(** [typedef enum { POWA_STAT_FUNCTION, POWA_STAT_TABLE } PowaStatKind;] *)
Inductive PowaStatKind := POWA_STAT_FUNCTION | POWA_STAT_TABLE.

Definition POWA_STAT_FUNC_COLS : nat := 4.
Definition POWA_STAT_TAB_COLS : nat := 21.

(** ** The host's statistics entries (pgstat.h), with the fields read here.
    A [PgStat_Counter] is an [int64]; a [TimestampTz] is held as an
    [int64] too. *)

Record PgStat_StatFuncEntry := mkFunc {
  functionid : Oid;
  f_numcalls : Z;
  f_total_time : Z;
  f_self_time : Z
}.

Record PgStat_StatTabEntry := mkTab {
  tableid : Oid;
  numscans : Z;
  tuples_returned : Z;
  tuples_fetched : Z;
  tuples_inserted : Z;
  tuples_updated : Z;
  tuples_deleted : Z;
  tuples_hot_updated : Z;
  n_live_tuples : Z;
  n_dead_tuples : Z;
  changes_since_analyze : Z;
  blocks_fetched : Z;
  blocks_hit : Z;
  vacuum_timestamp : Z;
  vacuum_count : Z;
  autovac_vacuum_timestamp : Z;
  autovac_vacuum_count : Z;
  analyze_timestamp : Z;
  analyze_count : Z;
  autovac_analyze_timestamp : Z;
  autovac_analyze_count : Z
}.

(** [HTAB *tables; HTAB *functions;]: a pointer that may be NULL, to a
    hash table held as the sequence [hash_seq_search] yields. *)
Record PgStat_StatDBEntry := mkDB {
  databaseid : Oid;
  tables : option (list PgStat_StatTabEntry);
  functions : option (list PgStat_StatFuncEntry)
}.

(** ** Rows *)

(** A [double] is an IEEE 754 binary64 number: 53 bits of precision,
    infinities at exponent 1024, operations rounded to nearest even. *)
Definition float8 := SpecFloat.spec_float.

(** [(double) n] for a 64-bit integer [n]. *)
Definition float8_of_int64 (n : Z) : float8 :=
  SpecFloat.binary_normalize 53 1024 n 0 false.

(** [x / y] on [double]. *)
Definition float8_div (x y : float8) : float8 := SpecFloat.SFdiv 53 1024 x y.

(** A [Datum], by the macro that made it. *)
Inductive Datum :=
| DatumZero                      (* memset(values, 0, sizeof(values)) *)
| ObjectIdGetDatum (o : Oid)
| Int64GetDatum (n : Z)
| Float8GetDatum (x : float8)
| TimestampTzGetDatum (t : Z).

(** [Datum values[COLS]; bool nulls[COLS];] *)
Record Row := mkRow {
  values : list Datum;
  nulls : list bool
}.

(** The arrays after the two [memset], and [int i = 0]. *)
Definition blank (cols : nat) : Row * nat :=
  (mkRow (replicate cols DatumZero) (replicate cols false), 0%nat).

(** [values[i++] = d;] *)
Definition set_value (d : Datum) (b : Row * nat) : Row * nat :=
  (mkRow (<[snd b := d]> (values (fst b))) (nulls (fst b)), S (snd b)).

(** [nulls[i++] = true;] *)
Definition set_null (b : Row * nat) : Row * nat :=
  (mkRow (values (fst b)) (<[snd b := true]> (nulls (fst b))), S (snd b)).

(** [if (ts == 0) nulls[i++] = true; else values[i++] = TimestampTzGetDatum(ts);] *)
Definition set_timestamp (ts : Z) (b : Row * nat) : Row * nat :=
  if ts =? 0 then set_null b else set_value (TimestampTzGetDatum ts) b.

(** The statements of a loop body, run in order on the arrays. *)
Definition fill (stmts : list (Row * nat -> Row * nat)) (b : Row * nat) : Row * nat :=
  fold_left (fun acc stmt => stmt acc) stmts b.

(** Signed 64-bit arithmetic wraps. *)
Definition int64 (z : Z) : Z := (z + 2 ^ 63) mod 2 ^ 64 - 2 ^ 63.

(** [((double) t) / 1000.0] *)
Definition div1000 (t : Z) : float8 :=
  float8_div (float8_of_int64 t) (float8_of_int64 1000).

(** l.370-382: the body of the loop over [dbentry->functions]. *)
Definition func_fill (funcentry : PgStat_StatFuncEntry) : Row * nat :=
  fill [ set_value (ObjectIdGetDatum (functionid funcentry));
         set_value (Int64GetDatum (f_numcalls funcentry));
         set_value (Float8GetDatum (div1000 (f_total_time funcentry)));
         set_value (Float8GetDatum (div1000 (f_self_time funcentry))) ]
       (blank POWA_STAT_FUNC_COLS).

(** l.395-449: the body of the loop over [dbentry->tables]. *)
Definition tab_fill (tabentry : PgStat_StatTabEntry) : Row * nat :=
  fill [ set_value (ObjectIdGetDatum (tableid tabentry));
         set_value (Int64GetDatum (numscans tabentry));
         set_value (Int64GetDatum (tuples_returned tabentry));
         set_value (Int64GetDatum (tuples_fetched tabentry));
         set_value (Int64GetDatum (tuples_inserted tabentry));
         set_value (Int64GetDatum (tuples_updated tabentry));
         set_value (Int64GetDatum (tuples_deleted tabentry));
         set_value (Int64GetDatum (tuples_hot_updated tabentry));
         set_value (Int64GetDatum (n_live_tuples tabentry));
         set_value (Int64GetDatum (n_dead_tuples tabentry));
         set_value (Int64GetDatum (changes_since_analyze tabentry));
         set_value (Int64GetDatum
                      (int64 (blocks_fetched tabentry - blocks_hit tabentry)));
         set_value (Int64GetDatum (blocks_hit tabentry));
         set_timestamp (vacuum_timestamp tabentry);
         set_value (Int64GetDatum (vacuum_count tabentry));
         set_timestamp (autovac_vacuum_timestamp tabentry);
         set_value (Int64GetDatum (autovac_vacuum_count tabentry));
         set_timestamp (analyze_timestamp tabentry);
         set_value (Int64GetDatum (analyze_count tabentry));
         set_timestamp (autovac_analyze_timestamp tabentry);
         set_value (Int64GetDatum (autovac_analyze_count tabentry)) ]
       (blank POWA_STAT_TAB_COLS).

Definition func_row (funcentry : PgStat_StatFuncEntry) : Row := fst (func_fill funcentry).
Definition tab_row (tabentry : PgStat_StatTabEntry) : Row := fst (tab_fill tabentry).

(** ** The caller's side of the call (fmgr.h, execnodes.h, funcapi.h) *)

Inductive NodeTag := T_ReturnSetInfo | T_OtherNode.

Record ReturnSetInfo := mkRsinfo {
  type : NodeTag;
  allowedModes : Z
}.

(** [SFRM_Materialize] of the host's [SetFunctionReturnMode]. *)
Definition SFRM_Materialize : Z := 2.

Inductive TypeFuncClass :=
| TYPEFUNC_SCALAR | TYPEFUNC_COMPOSITE | TYPEFUNC_RECORD | TYPEFUNC_OTHER.

Record FunctionCallInfo := mkFcinfo {
  arg0 : Oid;                            (* PG_GETARG_OID(0) *)
  resultinfo : option ReturnSetInfo;     (* fcinfo->resultinfo, NULL or a node *)
  call_result_type : TypeFuncClass       (* what get_call_result_type answers *)
}.

Definition IsA (rsinfo : ReturnSetInfo) (t : NodeTag) : bool :=
  match type rsinfo, t with
  | T_ReturnSetInfo, T_ReturnSetInfo | T_OtherNode, T_OtherNode => true
  | _, _ => false
  end.

(** ** The backend: what the function reads and writes outside itself *)

(** [MyDatabaseId], and the statistics cache of the backend: empty after
    [pgstat_clear_snapshot], and otherwise filled by the first fetch for
    the database [MyDatabaseId] named at that moment (l.330-339). *)
Record Backend := mkBackend {
  MyDatabaseId : Oid;
  pgStatSnapshot : option Oid
}.

Inductive Error :=
| CannotAcceptSet          (* l.293 *)
| MaterializeNotAllowed    (* l.297 *)
| RowTypeRequired          (* l.307 *)
| HostError                (* an ERROR raised inside a host routine *)
| NullHashTable.           (* hash_seq_init on a NULL table *)

(** An ERROR leaves the function at once ([ereport] does not return):
    nothing after it runs, and the backend stays as it was then. *)
Inductive Outcome (A : Type) :=
| Return (a : A) (b : Backend)
| Raise (e : Error) (b : Backend).
Arguments Return {A} a b.
Arguments Raise {A} e b.

Definition M (A : Type) : Type := Backend -> Outcome A.

#[export] Instance M_ret : MRet M := fun A a b => Return a b.
#[export] Instance M_bind : MBind M := fun A B f m b =>
  match m b with
  | Return a b' => f a b'
  | Raise e b' => Raise e b'
  end.

Definition raise {A} (e : Error) : M A := fun b => Raise e b.

Definition backend_after {A} (o : Outcome A) : Backend :=
  match o with Return _ b => b | Raise _ b => b end.

Definition Tuplestorestate := list Row.

(** The host the function runs on: what the statistics collector holds
    for a database when read with a given database in scope ([None]: the
    fetch raises an ERROR; [Some None]: no entry), and whether storing a
    row raises one (out of memory, temporary file). *)
Record Host := mkHost {
  collector : Oid -> Oid -> option (option PgStat_StatDBEntry);
  put_raises : Tuplestorestate -> Row -> bool
}.

Section WithHost.
Variable host : Host.

Definition pgstat_clear_snapshot : M unit := fun b =>
  Return tt (mkBackend (MyDatabaseId b) None).

Definition get_MyDatabaseId : M Oid := fun b => Return (MyDatabaseId b) b.

Definition set_MyDatabaseId (d : Oid) : M unit := fun b =>
  Return tt (mkBackend d (pgStatSnapshot b)).

Definition pgstat_fetch_stat_dbentry (dbid : Oid) : M (option PgStat_StatDBEntry) :=
  fun b =>
    let scope := match pgStatSnapshot b with
                 | Some d => d
                 | None => MyDatabaseId b
                 end in
    match collector host scope dbid with
    | Some r => Return r (mkBackend (MyDatabaseId b) (Some scope))
    | None => Raise HostError b
    end.

Definition tuplestore_putvalues (tupstore : Tuplestorestate) (r : Row)
  : M Tuplestorestate :=
  if put_raises host tupstore r then raise HostError else mret (tupstore ++ [r]).

(** [hash_seq_init] and the [while (hash_seq_search ..)] loop. *)
Fixpoint hash_seq {A} (body : A -> Tuplestorestate -> M Tuplestorestate)
    (entries : list A) (tupstore : Tuplestorestate) : M Tuplestorestate :=
  match entries with
  | [] => mret tupstore
  | e :: rest => tupstore' ← body e tupstore; hash_seq body rest tupstore'
  end.

(** l.291-307: the checks on the caller. *)
Definition check_caller (fcinfo : FunctionCallInfo) : M ReturnSetInfo :=
  rsinfo ← match resultinfo fcinfo with
           | None => raise CannotAcceptSet
           | Some r => if IsA r T_ReturnSetInfo then mret r
                       else raise CannotAcceptSet
           end;
  (if Z.land (allowedModes rsinfo) SFRM_Materialize =? 0
   then raise MaterializeNotAllowed else mret tt);;
  match call_result_type fcinfo with
  | TYPEFUNC_COMPOSITE => mret rsinfo
  | _ => raise RowTypeRequired
  end.

(** l.359-456 *)
Definition emit_rows (dbentry : option PgStat_StatDBEntry) (kind : PowaStatKind)
    (tupstore : Tuplestorestate) : M Tuplestorestate :=
  match dbentry with
  | Some e =>
      match functions e with
      | Some fs =>
          match kind with
          | POWA_STAT_FUNCTION =>
              hash_seq (fun funcentry ts => tuplestore_putvalues ts (func_row funcentry))
                       fs tupstore
          | POWA_STAT_TABLE =>
              match tables e with
              | Some tabs =>
                  hash_seq (fun tabentry ts => tuplestore_putvalues ts (tab_row tabentry))
                           tabs tupstore
              | None => raise NullHashTable
              end
          end
      | None => mret tupstore
      end
  | None => mret tupstore
  end.

(** [powa_stat_common]; the value returned is [rsinfo->setResult]. *)
Definition powa_stat_common (fcinfo : FunctionCallInfo) (kind : PowaStatKind)
  : M Tuplestorestate :=
  let dbid := arg0 fcinfo in
  check_caller fcinfo;;
  let tupstore : Tuplestorestate := [] in
  pgstat_clear_snapshot;;
  backend_dbid ← get_MyDatabaseId;
  set_MyDatabaseId dbid;;
  dbentry ← pgstat_fetch_stat_dbentry dbid;
  set_MyDatabaseId backend_dbid;;
  tupstore ← emit_rows dbentry kind tupstore;
  pgstat_clear_snapshot;;
  mret tupstore.

Definition powa_stat_user_functions (fcinfo : FunctionCallInfo) : M Tuplestorestate :=
  powa_stat_common fcinfo POWA_STAT_FUNCTION.

Definition powa_stat_all_rel (fcinfo : FunctionCallInfo) : M Tuplestorestate :=
  powa_stat_common fcinfo POWA_STAT_TABLE.

End WithHost.

(** The caller passes the three checks of l.291-307. *)
Definition caller_ok (fcinfo : FunctionCallInfo) : Prop :=
  (exists r, resultinfo fcinfo = Some r /\ type r = T_ReturnSetInfo /\
             Z.land (allowedModes r) SFRM_Materialize <> 0) /\
  call_result_type fcinfo = TYPEFUNC_COMPOSITE.

(** The host stores every row it is given. *)
Definition stores_all (host : Host) : Prop :=
  forall tupstore r, put_raises host tupstore r = false.



(** A nullable timestamp column of a relation row: column [c] is null
    exactly when the timestamp [ts] of the entry is 0, and carries [ts]
    otherwise. *)
Definition timestamp_column (r : Row) (c : nat) (ts : Z) : Prop :=
  (nulls r !! c = Some true <-> ts = 0) /\
  (ts <> 0 -> nulls r !! c = Some false /\
              values r !! c = Some (TimestampTzGetDatum ts)).

(** Column [c] of a row is not null and holds [d]. *)
Definition column (r : Row) (c : nat) (d : Datum) : Prop :=
  nulls r !! c = Some false /\ values r !! c = Some d.


(** ** Vocabulary for the rows *)

(** The columns of a relation row that may be null. *)
Definition nullable (c : nat) : bool :=
  match c with
  | 13 | 15 | 17 | 19 => true
  | _ => false
  end%nat.

(** The rows and the error of an outcome, apart from the backend. *)
Definition answer {A} (o : Outcome A) : A + Error :=
  match o with Return a _ => inl a | Raise e _ => inr e end.

(** ** Sample data *)

(** A caller that accepts value-per-call and materialized sets and
    declared a row type. *)
Definition sample_call (dbid : Oid) : FunctionCallInfo :=
  mkFcinfo dbid (Some (mkRsinfo T_ReturnSetInfo 3)) TYPEFUNC_COMPOSITE.

(** A relation that was analyzed (manually, and by autovacuum) but never
    vacuumed. *)
Definition sample_tab (id : Oid) : PgStat_StatTabEntry :=
  mkTab id 12 3400 1200 50 7 3 2 48 5 9 900 850 0 0 0 0 715000000 2 716000000 4.

Definition sample_func (id : Oid) : PgStat_StatFuncEntry :=
  mkFunc id 7 123456 23456.

(** A host whose collector gives the same answer for every database and
    whose tuplestore takes any number of rows, or [room] rows only. *)
Definition sample_host (answer : option (option PgStat_StatDBEntry))
    (room : option nat) : Host :=
  mkHost (fun _ _ => answer)
         (fun tupstore _ =>
            match room with
            | Some n => (n <=? length tupstore)%nat
            | None => false
            end).

(** One function, called 7 times for 5000 microseconds in all, 1 of them
    its own. *)
Definition one_function : PgStat_StatDBEntry :=
  mkDB 16384 (Some []) (Some [mkFunc 900 7 5000 1]).

(** Three relations; the function table is there (and empty), or is not. *)
Definition three_relations (fs : option (list PgStat_StatFuncEntry))
  : PgStat_StatDBEntry :=
  mkDB 16384 (Some [sample_tab 16385; sample_tab 16386; sample_tab 16387]) fs.

End Extractor.

(* ===================================================================== *)
(** * Loading the module: [_PG_init]                                      *)
(* ===================================================================== *)

Module Init.

Local Open Scope string_scope.

(** Constants of the host (limits.h, datatype/timestamp.h, bgworker.h). *)
Definition INT_MAX : Z := 2147483647.
Definition HOURS_PER_DAY : Z := 24.
Definition MINS_PER_HOUR : Z := 60.
Definition SECS_PER_MINUTE : Z := 60.
Definition BGWORKER_SHMEM_ACCESS : Z := 1.
Definition BGWORKER_BACKEND_DATABASE_CONNECTION : Z := 2.

Inductive GucContext := PGC_POSTMASTER | PGC_SIGHUP | PGC_SUSET.
Inductive GucUnit := GUC_NO_UNIT | GUC_UNIT_MS | GUC_UNIT_MIN.
Inductive BgWorkerStartTime :=
| BgWorkerStart_PostmasterStart
| BgWorkerStart_ConsistentState
| BgWorkerStart_RecoveryFinished.

(** The static variables of the file a setting is bound to. *)
Inductive Variable_ :=
| powa_frequency | powa_coalesce | powa_retention
| powa_database | powa_ignored_users.

(** One call of [DefineCustomIntVariable] or [DefineCustomStringVariable]:
    name, bound variable, boot value, bounds, context and flags. *)
Inductive Setting :=
| IntSetting (bootValue minValue maxValue : Z)
| StringSetting (bootValue : option string).

Record CustomVariable := mkVar {
  name : string;
  valueAddr : Variable_;
  setting : Setting;
  context : GucContext;
  flags : GucUnit
}.

Record BackgroundWorker := mkWorker {
  bgw_name : string;
  bgw_flags : Z;
  bgw_start_time : BgWorkerStartTime;
  bgw_restart_time : Z;
  bgw_main_arg : Z
}.

(** What loading the library leaves with the postmaster. *)
Record Registered := mkRegistered {
  variables : list CustomVariable;
  workers : list BackgroundWorker
}.

Inductive Loaded :=
| Registers (r : Registered)
| LoadError.   (* "This module can only be loaded via shared_preload_libraries" *)

(** [_PG_init], given [process_shared_preload_libraries_in_progress]. *)
Definition _PG_init (process_shared_preload_libraries_in_progress : bool) : Loaded :=
  if negb process_shared_preload_libraries_in_progress then LoadError
  else
    Registers
      (mkRegistered
         [ mkVar "powa.frequency" powa_frequency
                 (IntSetting 300000 (-1) (INT_MAX / 1000)) PGC_SUSET GUC_UNIT_MS;
           mkVar "powa.coalesce" powa_coalesce
                 (IntSetting 100 5 INT_MAX) PGC_SUSET GUC_NO_UNIT;
           mkVar "powa.retention" powa_retention
                 (IntSetting (HOURS_PER_DAY * MINS_PER_HOUR) 0
                             (INT_MAX / SECS_PER_MINUTE))
                 PGC_SUSET GUC_UNIT_MIN;
           mkVar "powa.database" powa_database
                 (StringSetting (Some "powa")) PGC_POSTMASTER GUC_NO_UNIT;
           mkVar "powa.ignored_users" powa_ignored_users
                 (StringSetting None) PGC_SIGHUP GUC_NO_UNIT ]
         [ mkWorker "powa"
                    (Z.lor BGWORKER_SHMEM_ACCESS BGWORKER_BACKEND_DATABASE_CONNECTION)
                    BgWorkerStart_RecoveryFinished 10 0 ]).

(** The integer values a setting admits: those between its bounds. *)
Definition admits (v : CustomVariable) (x : Z) : Prop :=
  match setting v with
  | IntSetting _ lo hi => lo <= x <= hi
  | StringSetting _ => False
  end.

Definition boot_of (v : CustomVariable) : option Z :=
  match setting v with
  | IntSetting boot _ _ => Some boot
  | StringSetting _ => None
  end.

End Init.

(* ===================================================================== *)
(** * Properties of the scheduler                                         *)
(* ===================================================================== *)

Import Scheduler.

(** The floor check leaves the frequency alone, whatever it decides. *)
Lemma die_frequency w :
  powa_frequency (die_on_too_small_frequency w) = powa_frequency w.
Proof. unfold die_on_too_small_frequency. now destruct (_ && _). Qed.

Lemma die_passes w :
  ~ (0 < powa_frequency w < min_powa_frequency) ->
  die_on_too_small_frequency w = w.
Proof.
  intros H. unfold die_on_too_small_frequency.
  destruct (0 <? powa_frequency w) eqn:E1;
    destruct (powa_frequency w <? min_powa_frequency) eqn:E2; simpl; auto.
  apply Z.ltb_lt in E1, E2. lia.
Qed.

Lemma die_exits w :
  0 < powa_frequency w < min_powa_frequency ->
  die_on_too_small_frequency w =
  mkWorker (powa_frequency w) (Exited 1)
           (LogTooSmall min_powa_frequency :: events w).
Proof.
  intros [H1 H2]. unfold die_on_too_small_frequency.
  apply Z.ltb_lt in H1, H2. now rewrite H1, H2.
Qed.

(** Once the process has exited nothing more happens. *)
Lemma step_exited i w c : loc w = Exited c -> step i w = w.
Proof.
  intros H. unfold step, deliver, exec. rewrite H.
  destruct (sighup i); now rewrite H.
Qed.

Lemma run_exited ins w c : loc w = Exited c -> run ins w = w.
Proof.
  induction ins as [|i ins IH]; simpl; intros H; [reflexivity|].
  rewrite (step_exited i w c H). now apply IH.
Qed.

Lemma run_cons i ins w : run (i :: ins) w = run ins (step i w).
Proof. reflexivity. Qed.

(** A step without a signal is the statement at the program point. *)
Lemma step_quiet i w : quiet i -> step i w = exec i w.
Proof.
  unfold quiet, step, deliver. intros ->. now destruct (loc w).
Qed.

Lemma die_exits_with_one w :
  exits_with_one w -> exits_with_one (die_on_too_small_frequency w).
Proof.
  unfold exits_with_one, die_on_too_small_frequency. intros H c.
  destruct (_ && _); simpl; [congruence | apply H].
Qed.

Lemma deliver_exits_with_one i w :
  exits_with_one w -> exits_with_one (deliver i w).
Proof.
  intros H. unfold deliver.
  destruct (loc w) eqn:E, (sighup i); auto;
    apply die_exits_with_one; intros c; simpl; congruence.
Qed.

Lemma exec_exits_with_one i w :
  exits_with_one w -> exits_with_one (exec i w).
Proof.
  intros H c. unfold exec.
  destruct (loc w) eqn:E; simpl; try congruence.
  - pose proof (die_exits_with_one w H) as H'.
    unfold exited. destruct (loc (die_on_too_small_frequency w)) eqn:E';
      simpl; try congruence.
    rewrite E'. intros [= <-]. now apply H'.
  - destruct (powa_frequency w <? 0); simpl; congruence.
  - destruct (powa_frequency w <? 0); simpl; congruence.
  - destruct (0 <? _); simpl; congruence.
  - rewrite E. intros [= <-]. now apply H.
Qed.

Lemma run_exits_with_one ins w :
  exits_with_one w -> exits_with_one (run ins w).
Proof.
  revert w. induction ins as [|i ins IH]; simpl; intros w H; [exact H|].
  apply IH. unfold step. now apply exec_exits_with_one, deliver_exits_with_one.
Qed.

(** ** The compensated wait *)

Lemma time_to_wait_truncates freq e :
  e <= (freq - 1) * 1000 ->
  0 < time_to_wait freq e /\
  time_to_wait freq e * 1000 <= freq * 1000 - e < (time_to_wait freq e + 1) * 1000.
Proof. unfold time_to_wait. intros. Z.to_euclidean_division_equations. lia. Qed.

Lemma time_to_wait_whole freq k : time_to_wait freq (k * 1000) = freq - k.
Proof. unfold time_to_wait. Z.to_euclidean_division_equations. lia. Qed.

Lemma time_to_wait_late freq e :
  (freq - 1) * 1000 < e -> time_to_wait freq e <= 0.
Proof. unfold time_to_wait. intros. Z.to_euclidean_division_equations. lia. Qed.

Lemma compute_sleeps freq e ev i :
  quiet i -> 0 < time_to_wait freq e ->
  step i (mkWorker freq (AtCompute e) ev) =
  mkWorker freq (AtWaitLatch (time_to_wait freq e)) ev.
Proof.
  intros Hq Ht. rewrite step_quiet by exact Hq. unfold exec; simpl.
  apply Z.ltb_lt in Ht. now rewrite Ht.
Qed.

Lemma compute_skips freq e ev i :
  quiet i -> time_to_wait freq e <= 0 ->
  step i (mkWorker freq (AtCompute e) ev) = mkWorker freq AtLoopTop ev.
Proof.
  intros Hq Ht. rewrite step_quiet by exact Hq. unfold exec; simpl.
  apply Z.ltb_ge in Ht. now rewrite Ht.
Qed.

(** C3, as stated, fails: a snapshot that took 4999.5 ms against an
    interval of 5000 ms is shorter than the interval, yet the worker does
    not block for the remaining half millisecond, it goes straight back
    to the top of the loop. *)
Lemma C3_counterexample :
  ~ (forall (freq : Z) (e : instr_time) (i : Input),
        0 < freq -> quiet i -> e < freq * 1000 ->
        exists t, t * 1000 = freq * 1000 - e /\
                  loc (step i (mkWorker freq (AtCompute e) [])) = AtWaitLatch t).
Proof.
  intros H.
  destruct (H 5000 4999500 (mkInput None 0)) as (t & _ & Ht);
    [lia | reflexivity | lia |].
  vm_compute in Ht. discriminate Ht.
Qed.

(** C3, amended: for a positive interval [freq] and an elapsed time [e]
    (in microseconds), the wait is [freq - e] with the fraction of a
    millisecond dropped.  If at least one whole millisecond remains the
    worker blocks in [WaitLatch] for that many milliseconds before the
    next tick, and the next tick then starts less than a millisecond
    before [previous_start + freq], exactly there when [e] is a whole
    number of milliseconds.  If less than a millisecond remains, and so
    whenever the snapshot took the whole interval or more, the wait is
    not positive and the next tick starts at once.  5000 ms and 1200 ms
    give 3800 ms; 5000 ms and 6000 ms give no sleep. *)
Theorem C3_wait_compensates (freq : Z) (e : instr_time) (ev : list Event)
    (i1 i2 : Input) :
  0 < freq -> quiet i1 -> quiet i2 ->
  let w := mkWorker freq (AtCompute e) ev in
  let t := time_to_wait freq e in
  (e <= (freq - 1) * 1000 ->
     0 < t /\ t * 1000 <= freq * 1000 - e < (t + 1) * 1000 /\
     step i1 w = mkWorker freq (AtWaitLatch t) ev /\
     run [i1; i2] w = mkWorker freq AtLoopTop (WaitLatch t :: ev)) /\
  (forall k, e = k * 1000 -> k < freq -> t = freq - k /\ e + t * 1000 = freq * 1000) /\
  ((freq - 1) * 1000 < e ->
     t <= 0 /\ step i1 w = mkWorker freq AtLoopTop ev) /\
  (freq * 1000 <= e -> t <= 0 /\ step i1 w = mkWorker freq AtLoopTop ev) /\
  time_to_wait 5000 1200000 = 3800 /\
  time_to_wait 5000 6000000 <= 0 /\
  step i1 (mkWorker 5000 (AtCompute 1200000) ev) = mkWorker 5000 (AtWaitLatch 3800) ev /\
  step i1 (mkWorker 5000 (AtCompute 6000000) ev) = mkWorker 5000 AtLoopTop ev.
Proof.
  intros Hf Hq1 Hq2 w t. subst w t.
  repeat split.
  - now apply time_to_wait_truncates.
  - now apply time_to_wait_truncates.
  - now apply time_to_wait_truncates.
  - apply compute_sleeps; [exact Hq1 | now apply time_to_wait_truncates].
  - pose proof (time_to_wait_truncates freq e H) as [Hpos _].
    simpl. rewrite compute_sleeps by assumption.
    now rewrite step_quiet by exact Hq2.
  - subst e. apply time_to_wait_whole.
  - subst e. rewrite time_to_wait_whole. lia.
  - now apply time_to_wait_late.
  - apply compute_skips; [exact Hq1 | now apply time_to_wait_late].
  - apply time_to_wait_late. lia.
  - apply compute_skips; [exact Hq1 | apply time_to_wait_late; lia].
  - discriminate.
  - apply (compute_sleeps 5000 1200000 ev i1 Hq1). reflexivity.
  - apply (compute_skips 5000 6000000 ev i1 Hq1). discriminate.
Qed.

Lemma C3_wait_compensates_witness :
  let w := mkWorker 5000 (AtCompute 1200500) [] in
  time_to_wait 5000 1200500 = 3799 /\
  run [mkInput None 0; mkInput None 0] w =
    mkWorker 5000 AtLoopTop [WaitLatch 3799].
Proof.
  pose proof (C3_wait_compensates 5000 1200500 [] (mkInput None 0) (mkInput None 0))
    as H.
  destruct H as (H1 & _); [lia | reflexivity | reflexivity |].
  destruct H1 as (_ & _ & _ & Hrun); [lia|].
  split; [reflexivity | exact Hrun].
Defined.

(** ** Exit paths *)

Lemma start_negative f i1 i2 ins :
  f < 0 -> quiet i2 ->
  run (i1 :: i2 :: ins) (start f) =
  mkWorker f (Exited 1) [LogDeactivated f].
Proof.
  intros Hf Hq. simpl.
  assert (H1 : step i1 (start f) = mkWorker f AtDeactivatedCheck []).
  { unfold step, deliver, exec, start; cbn [loc].
    rewrite die_passes by (simpl; lia). reflexivity. }
  rewrite H1. rewrite (step_quiet i2) by exact Hq.
  unfold exec; simpl. apply Z.ltb_lt in Hf. rewrite Hf.
  now apply run_exited with (c := 1).
Qed.

Lemma loop_top_negative w i :
  loc w = AtLoopTop -> powa_frequency w < 0 -> quiet i ->
  step i w = mkWorker (powa_frequency w) (Exited 1) (LogExitToDisconnect :: events w).
Proof.
  intros Hl Hf Hq. rewrite step_quiet by exact Hq.
  unfold exec. rewrite Hl. apply Z.ltb_lt in Hf. now rewrite Hf.
Qed.

(** A SIGHUP that brings a negative value passes the floor check. *)
Lemma deliver_negative f w i :
  f < 0 -> running w -> sighup i = Some f ->
  deliver i w = mkWorker f (loc w) (events w).
Proof.
  intros Hf Hr Hs. unfold deliver, running in *. rewrite Hs.
  destruct (loc w) eqn:E; try contradiction;
    unfold powa_sighup; rewrite die_passes by (simpl; lia);
    unfold ProcessConfigFile; now rewrite E.
Qed.

(** From anywhere in the loop, with a negative frequency and no further
    reload, the worker exits with status 1 within four steps, and the
    only snapshot still taken is one that had passed the check at the
    top of the loop already. *)
Lemma negative_leaves_loop f l ev ins :
  f < 0 -> in_loop (mkWorker f l ev) -> Forall quiet ins -> (4 <= length ins)%nat ->
  let w' := run ins (mkWorker f l ev) in
  loc w' = Exited 1 /\ powa_frequency w' = f /\
  (snapshots w' <= S (snapshots (mkWorker f l ev)))%nat /\
  (l <> AtSnapshot -> snapshots w' = snapshots (mkWorker f l ev)).
Proof.
  intros Hf Hl Hq Hlen.
  destruct ins as [|i1 [|i2 [|i3 [|i4 ins]]]]; simpl in Hlen; try lia.
  apply Forall_cons in Hq as [Hq1 Hq]. apply Forall_cons in Hq as [Hq2 Hq].
  apply Forall_cons in Hq as [Hq3 Hq]. apply Forall_cons in Hq as [Hq4 _].
  assert (Hneg : (f <? 0) = true) by now apply Z.ltb_lt.
  assert (Htop : forall ev' i rest, quiet i ->
            run (i :: rest) (mkWorker f AtLoopTop ev') =
            mkWorker f (Exited 1) (LogExitToDisconnect :: ev')).
  { intros ev' i rest Hi. rewrite run_cons, step_quiet by exact Hi.
    unfold exec; cbn [loc powa_frequency]. rewrite Hneg.
    now apply run_exited with (c := 1). }
  assert (Hwait : forall ev' t i j rest, quiet i -> quiet j ->
            run (i :: j :: rest) (mkWorker f (AtWaitLatch t) ev') =
            mkWorker f (Exited 1) (LogExitToDisconnect :: WaitLatch t :: ev')).
  { intros ev' t i j rest Hi Hj. rewrite run_cons, step_quiet by exact Hi.
    unfold exec, goto, emit; cbn [loc powa_frequency events]. now apply Htop. }
  assert (Hcomp : forall ev' e i j k rest, quiet i -> quiet j -> quiet k ->
            let r := run (i :: j :: k :: rest) (mkWorker f (AtCompute e) ev') in
            loc r = Exited 1 /\ powa_frequency r = f /\
            snapshots r = snapshots (mkWorker f (AtCompute e) ev')).
  { intros ev' e i j k rest Hi Hj Hk. cbv zeta.
    rewrite run_cons, step_quiet by exact Hi.
    unfold exec, goto; cbn [loc powa_frequency events].
    destruct (0 <? time_to_wait f e).
    - rewrite Hwait by assumption. now cbn.
    - rewrite Htop by assumption. now cbn. }
  cbv zeta. destruct l; cbn in Hl; try contradiction.
  - rewrite Htop by assumption. cbn. repeat split; auto.
  - rewrite run_cons, step_quiet by exact Hq1.
    unfold exec, goto, emit; cbn [loc powa_frequency events].
    destruct (Hcomp (TakeSnapshot :: ev) (elapsed i1) i2 i3 i4 ins) as (H1 & H2 & H3);
      try assumption.
    repeat split; auto.
    + rewrite H3. cbn. lia.
    + congruence.
  - destruct (Hcomp ev e i1 i2 i3 (i4 :: ins)) as (H1 & H2 & H3); try assumption.
    repeat split; auto. rewrite H3. lia.
  - rewrite Hwait by assumption. cbn. repeat split; auto.
Qed.

(** C4: the worker never leaves through [exit] with status 0.  A negative
    interval at startup ends it with status 1 before any connection; a
    reload that makes the interval negative while the loop runs ends it
    with status 1 at the check at the top of the next iteration, after
    at most the snapshot that was already under way. *)
Theorem C4_never_exits_with_zero (f : Z) (w : Worker) (i : Input)
    (rest : list Input) :
  f < 0 -> in_loop w -> sighup i = Some f ->
  Forall quiet rest -> (4 <= length rest)%nat ->
  (forall f0 ins c, loc (run ins (start f0)) = Exited c -> c <> 0) /\
  (forall i1 i2 ins, quiet i2 ->
     let w' := run (i1 :: i2 :: ins) (start f) in
     loc w' = Exited 1 /\ connects w' = 0%nat /\ snapshots w' = 0%nat) /\
  (forall w0 i0, loc w0 = AtLoopTop -> powa_frequency w0 < 0 -> quiet i0 ->
     loc (step i0 w0) = Exited 1 /\ snapshots (step i0 w0) = snapshots w0) /\
  (let w' := run rest (deliver i w) in
   loc w' = Exited 1 /\
   (snapshots w' <= S (snapshots w))%nat /\
   (loc w <> AtSnapshot -> snapshots w' = snapshots w)).
Proof.
  intros Hf Hl Hs Hq Hlen.
  assert (Hr : running w) by (unfold running, in_loop in *; now destruct (loc w)).
  split; [|split; [|split]].
  - intros f0 ins c H ->.
    assert (H0 : exits_with_one (start f0)) by (intros c'; discriminate).
    pose proof (run_exits_with_one ins _ H0 0 H). discriminate.
  - intros i1 i2 ins Hq2. cbv zeta.
    rewrite start_negative by assumption. now cbn.
  - intros w0 i0 Hl0 Hf0 Hq0.
    rewrite loop_top_negative by assumption. now cbn.
  - cbv zeta. rewrite (deliver_negative f) by assumption.
    destruct (negative_leaves_loop f (loc w) (events w) rest) as (H1 & _ & H2 & H3);
      try assumption.
    destruct w as [f' l ev]. cbn in *. auto.
Qed.

Lemma C4_never_exits_with_zero_witness :
  let q := mkInput None 700000 in
  let w := mkWorker 300000 AtSnapshot [Connect] in
  run [q; q; q; q] (deliver (mkInput (Some (-1)) 0) w) =
    mkWorker (-1) (Exited 1) [LogExitToDisconnect; TakeSnapshot; Connect] /\
  loc (run [q; q; q; q] (deliver (mkInput (Some (-1)) 0) w)) = Exited 1 /\
  run [q; q] (start (-1)) = mkWorker (-1) (Exited 1) [LogDeactivated (-1)].
Proof.
  pose (q := mkInput None 700000).
  pose (w := mkWorker 300000 AtSnapshot [Connect]).
  destruct (C4_never_exits_with_zero (-1) w (mkInput (Some (-1)) 0) [q; q; q; q])
    as (_ & _ & _ & Hloop & _).
  - lia.
  - exact I.
  - reflexivity.
  - repeat constructor.
  - simpl. lia.
  - split; [reflexivity|]. split; [exact Hloop | reflexivity].
Defined.

(** C5: an interval that is positive and below the floor of 5000 ms is
    fatal.  At startup the worker logs and exits with status 1 in its
    first statement.  While it runs, the reload handler does the same as
    soon as the value arrives, so no further snapshot is taken; the value
    is kept as configured, not raised to the floor. *)
Theorem C5_below_floor_is_fatal (f : Z) (w : Worker) (i : Input)
    (ins : list Input) :
  0 < f < min_powa_frequency -> running w -> sighup i = Some f ->
  (forall i0 ins0,
     run (i0 :: ins0) (start f) =
     mkWorker f (Exited 1) [LogTooSmall min_powa_frequency]) /\
  deliver i w = mkWorker f (Exited 1) (LogTooSmall min_powa_frequency :: events w) /\
  run (i :: ins) w =
    mkWorker f (Exited 1) (LogTooSmall min_powa_frequency :: events w) /\
  snapshots (run (i :: ins) w) = snapshots w /\
  powa_frequency (run (i :: ins) w) <> min_powa_frequency.
Proof.
  intros Hf Hr Hs.
  assert (Hd : deliver i w =
               mkWorker f (Exited 1) (LogTooSmall min_powa_frequency :: events w)).
  { unfold deliver, running in *. rewrite Hs.
    destruct (loc w) eqn:E; try contradiction;
      unfold powa_sighup; rewrite die_exits by (simpl; lia); reflexivity. }
  assert (Hrun : run (i :: ins) w =
               mkWorker f (Exited 1) (LogTooSmall min_powa_frequency :: events w)).
  { rewrite run_cons. unfold step. rewrite Hd. unfold exec; cbn [loc].
    now apply run_exited with (c := 1). }
  split; [|split; [|split; [|split]]].
  - intros i0 ins0. rewrite run_cons. unfold step, deliver, exec, start; cbn [loc].
    rewrite die_exits by (simpl; lia). cbn.
    now apply run_exited with (c := 1).
  - exact Hd.
  - exact Hrun.
  - rewrite Hrun. reflexivity.
  - rewrite Hrun. cbn. lia.
Qed.

Lemma C5_below_floor_is_fatal_witness :
  let w := mkWorker 300000 (AtWaitLatch 299000) [TakeSnapshot; Connect] in
  run [mkInput (Some 4999) 0; mkInput None 0; mkInput None 0] w =
    mkWorker 4999 (Exited 1) [LogTooSmall 5000; TakeSnapshot; Connect] /\
  run [mkInput None 0] (start 1) = mkWorker 1 (Exited 1) [LogTooSmall 5000].
Proof.
  pose (w := mkWorker 300000 (AtWaitLatch 299000) [TakeSnapshot; Connect]).
  destruct (C5_below_floor_is_fatal 4999 w (mkInput (Some 4999) 0)
              [mkInput None 0; mkInput None 0]) as (_ & _ & Hrun & _).
  - unfold min_powa_frequency. lia.
  - exact I.
  - reflexivity.
  - split; [exact Hrun | reflexivity].
Defined.

(** ** An interval of zero *)

Lemma zero_tick ev i1 i2 i3 ins :
  calm i1 -> calm i2 -> calm i3 ->
  run (i1 :: i2 :: i3 :: ins) (mkWorker 0 AtLoopTop ev) =
  run ins (mkWorker 0 AtLoopTop (TakeSnapshot :: ev)).
Proof.
  intros [Hq1 _] [Hq2 He2] [Hq3 _].
  assert (S1 : step i1 (mkWorker 0 AtLoopTop ev) = mkWorker 0 AtSnapshot ev)
    by (now rewrite step_quiet).
  assert (S2 : step i2 (mkWorker 0 AtSnapshot ev) =
               mkWorker 0 (AtCompute (elapsed i2)) (TakeSnapshot :: ev))
    by (now rewrite step_quiet).
  assert (S3 : step i3 (mkWorker 0 (AtCompute (elapsed i2)) (TakeSnapshot :: ev)) =
               mkWorker 0 AtLoopTop (TakeSnapshot :: ev))
    by (apply compute_skips; [exact Hq3 | apply time_to_wait_late; lia]).
  now rewrite !run_cons, S1, S2, S3.
Qed.

Lemma zero_ticks k : forall ev ins,
  length ins = (3 * k)%nat -> Forall calm ins ->
  run ins (mkWorker 0 AtLoopTop ev) =
  mkWorker 0 AtLoopTop (repeat TakeSnapshot k ++ ev).
Proof.
  induction k as [|k IH]; intros ev ins Hlen Hall.
  - destruct ins; [reflexivity | discriminate].
  - destruct ins as [|i1 [|i2 [|i3 ins]]]; simpl in Hlen; try lia.
    apply Forall_cons in Hall as [H1 Hall]. apply Forall_cons in Hall as [H2 Hall].
    apply Forall_cons in Hall as [H3 Hall].
    rewrite zero_tick by assumption.
    rewrite IH by (try assumption; lia).
    change (repeat TakeSnapshot (S k)) with (TakeSnapshot :: repeat TakeSnapshot k).
    rewrite repeat_cons. now rewrite <- app_assoc.
Qed.

(** C10, as stated, fails: the wait [0 - elapsed] is not at most 0 on
    every tick.  When the clock is set back during a snapshot the
    measured duration is negative (-2 ms here), the wait is positive and
    the worker sleeps, with an interval of 0 and no reload at all. *)
Lemma C10_counterexample :
  ~ (forall ins, Forall quiet ins ->
       waits (run ins (start 0)) = 0%nat /\
       forall e, loc (run ins (start 0)) = AtCompute e -> time_to_wait 0 e <= 0).
Proof.
  intros H.
  pose (q := mkInput None (-2000)).
  destruct (H [q; q; q; q; q; q; q]) as [Hw _]; [repeat constructor|].
  vm_compute in Hw. discriminate Hw.
Qed.

(** C10, amended: an interval of exactly 0 does not disable the worker.
    The floor check lets it pass, neither negative-value exit is taken,
    the worker connects, and on every tick whose measured duration is
    not negative the computed wait [0 - elapsed] is at most 0: after [k]
    such rounds of the loop it has taken [k] snapshots one after the
    other, without ever calling [WaitLatch], and is still running. *)
Theorem C10_zero_interval_runs_back_to_back (k : nat) (i1 i2 i3 : Input)
    (ins : list Input) :
  quiet i2 -> quiet i3 -> length ins = (3 * k)%nat -> Forall calm ins ->
  die_on_too_small_frequency (start 0) = start 0 /\
  run [i1; i2; i3] (start 0) = mkWorker 0 AtLoopTop [Connect] /\
  (forall e, 0 <= e -> time_to_wait 0 e <= 0) /\
  let w := run (i1 :: i2 :: i3 :: ins) (start 0) in
  w = mkWorker 0 AtLoopTop (repeat TakeSnapshot k ++ [Connect]) /\
  exited w = false /\ snapshots w = k /\ waits w = 0%nat.
Proof.
  intros Hq2 Hq3 Hlen Hall.
  assert (Hboot : forall rest, run (i1 :: i2 :: i3 :: rest) (start 0) =
                               run rest (mkWorker 0 AtLoopTop [Connect])).
  { intros rest. rewrite !run_cons.
    rewrite (step_quiet i3) by exact Hq3. rewrite (step_quiet i2) by exact Hq2.
    reflexivity. }
  split; [reflexivity|]. split; [apply (Hboot [])|].
  split; [intros e He; apply time_to_wait_late; lia|].
  cbv zeta. rewrite Hboot, (zero_ticks k) by assumption.
  split; [reflexivity|]. split; [reflexivity|].
  unfold snapshots, waits; cbn [events].
  rewrite !List.filter_app. cbn [List.filter]. rewrite !length_app. cbn [length].
  assert (H1 : forall n, List.filter (fun e => match e with TakeSnapshot => true | _ => false end)
                          (repeat TakeSnapshot n) = repeat TakeSnapshot n)
    by (induction n; cbn; congruence).
  assert (H2 : forall n, List.filter (fun e => match e with WaitLatch _ => true | _ => false end)
                          (repeat TakeSnapshot n) = [])
    by (induction n; cbn; congruence).
  rewrite H1, H2, repeat_length. cbn. lia.
Qed.

Lemma C10_zero_interval_runs_back_to_back_witness :
  let q := mkInput None 250000 in
  run [q; q; q; q; q; q; q; q; q] (start 0) =
    mkWorker 0 AtLoopTop [TakeSnapshot; TakeSnapshot; Connect].
Proof.
  pose (q := mkInput None 250000).
  destruct (C10_zero_interval_runs_back_to_back 2 q q q [q; q; q; q; q; q])
    as (_ & _ & _ & Hrun & _).
  - reflexivity.
  - reflexivity.
  - reflexivity.
  - repeat constructor; cbn; lia.
  - exact Hrun.
Defined.

(* ===================================================================== *)
(** * Properties of the extractor                                         *)
(* ===================================================================== *)

Import Extractor.

(** ** Rows *)

Lemma int64_id z : - 2 ^ 63 <= z < 2 ^ 63 -> int64 z = z.
Proof. unfold int64. intros H. rewrite Z.mod_small; lia. Qed.

(** The loop bodies fill every column: [Assert(i == POWA_STAT_*_COLS)]. *)
Lemma func_fill_asserts f : snd (func_fill f) = POWA_STAT_FUNC_COLS.
Proof. reflexivity. Qed.

Lemma tab_fill_asserts t : snd (tab_fill t) = POWA_STAT_TAB_COLS.
Proof.
  unfold tab_fill, fill, set_timestamp; cbn [fold_left].
  destruct (vacuum_timestamp t =? 0), (autovac_vacuum_timestamp t =? 0),
    (analyze_timestamp t =? 0), (autovac_analyze_timestamp t =? 0); reflexivity.
Qed.

Lemma func_row_columns f :
  values (func_row f) =
    [ ObjectIdGetDatum (functionid f); Int64GetDatum (f_numcalls f);
      Float8GetDatum (div1000 (f_total_time f));
      Float8GetDatum (div1000 (f_self_time f)) ] /\
  nulls (func_row f) = [false; false; false; false].
Proof. split; reflexivity. Qed.

Lemma tab_row_timestamps t :
  timestamp_column (tab_row t) 13 (vacuum_timestamp t) /\
  timestamp_column (tab_row t) 15 (autovac_vacuum_timestamp t) /\
  timestamp_column (tab_row t) 17 (analyze_timestamp t) /\
  timestamp_column (tab_row t) 19 (autovac_analyze_timestamp t).
Proof.
  unfold timestamp_column, tab_row, tab_fill, fill, set_timestamp; cbn [fold_left].
  destruct (Z.eqb_spec (vacuum_timestamp t) 0),
    (Z.eqb_spec (autovac_vacuum_timestamp t) 0),
    (Z.eqb_spec (analyze_timestamp t) 0),
    (Z.eqb_spec (autovac_analyze_timestamp t) 0);
    cbn; intuition congruence.
Qed.

Lemma tab_row_counters t :
  let r := tab_row t in
  column r 0 (ObjectIdGetDatum (tableid t)) /\
  column r 1 (Int64GetDatum (numscans t)) /\
  column r 2 (Int64GetDatum (tuples_returned t)) /\
  column r 3 (Int64GetDatum (tuples_fetched t)) /\
  column r 4 (Int64GetDatum (tuples_inserted t)) /\
  column r 5 (Int64GetDatum (tuples_updated t)) /\
  column r 6 (Int64GetDatum (tuples_deleted t)) /\
  column r 7 (Int64GetDatum (tuples_hot_updated t)) /\
  column r 8 (Int64GetDatum (n_live_tuples t)) /\
  column r 9 (Int64GetDatum (n_dead_tuples t)) /\
  column r 10 (Int64GetDatum (changes_since_analyze t)) /\
  column r 11 (Int64GetDatum (int64 (blocks_fetched t - blocks_hit t))) /\
  column r 12 (Int64GetDatum (blocks_hit t)) /\
  column r 14 (Int64GetDatum (vacuum_count t)) /\
  column r 16 (Int64GetDatum (autovac_vacuum_count t)) /\
  column r 18 (Int64GetDatum (analyze_count t)) /\
  column r 20 (Int64GetDatum (autovac_analyze_count t)).
Proof.
  unfold column, tab_row, tab_fill, fill, set_timestamp; cbn [fold_left].
  destruct (vacuum_timestamp t =? 0), (autovac_vacuum_timestamp t =? 0),
    (analyze_timestamp t =? 0), (autovac_analyze_timestamp t =? 0);
    repeat split; reflexivity.
Qed.

(** ** The call *)

Section Calls.
Variable host : Host.

Lemma check_caller_passes fcinfo b :
  caller_ok fcinfo -> exists r, check_caller fcinfo b = Return r b.
Proof.
  intros [(r & Hr & Ht & Hm) Hc]. exists r.
  unfold check_caller, mbind, M_bind, mret, M_ret, IsA.
  rewrite Hr, Ht, Hc. apply Z.eqb_neq in Hm. now rewrite Hm.
Qed.

Lemma check_caller_fails fcinfo b :
  ~ caller_ok fcinfo ->
  exists e, check_caller fcinfo b = Raise e b /\
            (e = CannotAcceptSet \/ e = MaterializeNotAllowed \/ e = RowTypeRequired).
Proof.
  intros Hn. unfold check_caller, mbind, M_bind, mret, M_ret, raise, IsA.
  destruct (resultinfo fcinfo) as [r|] eqn:Hr; [|eauto].
  destruct (type r) eqn:Ht; [|eauto].
  destruct (Z.eqb_spec (Z.land (allowedModes r) SFRM_Materialize) 0) as [Hm|Hm];
    [eauto|].
  destruct (call_result_type fcinfo) eqn:Hc; eauto.
  exfalso. apply Hn. split; [|exact Hc]. exists r. auto.
Qed.

(** After the checks the function is the fetch under the target's scope,
    the rows, and the second invalidation. *)
Lemma powa_stat_common_unfold fcinfo kind b :
  caller_ok fcinfo ->
  powa_stat_common host fcinfo kind b =
  match collector host (arg0 fcinfo) (arg0 fcinfo) with
  | None => Raise HostError (mkBackend (arg0 fcinfo) None)
  | Some dbentry =>
      match emit_rows host dbentry kind []
              (mkBackend (MyDatabaseId b) (Some (arg0 fcinfo))) with
      | Return rows b' => Return rows (mkBackend (MyDatabaseId b') None)
      | Raise e b' => Raise e b'
      end
  end.
Proof.
  intros Hok. destruct (check_caller_passes fcinfo b Hok) as [r Hr].
  unfold powa_stat_common, mbind, M_bind. rewrite Hr.
  unfold pgstat_clear_snapshot, get_MyDatabaseId, set_MyDatabaseId,
    pgstat_fetch_stat_dbentry; cbn [MyDatabaseId pgStatSnapshot].
  destruct (collector host (arg0 fcinfo) (arg0 fcinfo)); [|reflexivity].
  now destruct (emit_rows _ _ _ _ _).
Qed.

Lemma hash_seq_backend {A} (f : A -> Row) entries : forall tupstore b,
  backend_after
    (hash_seq (fun e ts => tuplestore_putvalues host ts (f e)) entries tupstore b)
  = b.
Proof.
  induction entries as [|e entries IH]; intros tupstore b; [reflexivity|].
  cbn [hash_seq]. unfold mbind, M_bind, tuplestore_putvalues.
  destruct (put_raises host tupstore (f e)); [reflexivity|].
  unfold mret, M_ret. apply IH.
Qed.

Lemma hash_seq_returns {A} (f : A -> Row) entries : forall tupstore b rows b',
  hash_seq (fun e ts => tuplestore_putvalues host ts (f e)) entries tupstore b
  = Return rows b' ->
  rows = tupstore ++ map f entries /\ b' = b.
Proof.
  induction entries as [|e entries IH]; intros tupstore b rows b'.
  - cbn. intros [= <- <-]. now rewrite app_nil_r.
  - cbn [hash_seq]. unfold mbind, M_bind, tuplestore_putvalues.
    destruct (put_raises host tupstore (f e)); [discriminate|].
    unfold mret, M_ret. intros H. apply IH in H as [-> ->].
    now rewrite <- app_assoc.
Qed.

Lemma hash_seq_stores {A} (f : A -> Row) entries :
  stores_all host -> forall tupstore b,
  hash_seq (fun e ts => tuplestore_putvalues host ts (f e)) entries tupstore b
  = Return (tupstore ++ map f entries) b.
Proof.
  intros Hs. induction entries as [|e entries IH]; intros tupstore b.
  - cbn. now rewrite app_nil_r.
  - cbn [hash_seq]. unfold mbind, M_bind, tuplestore_putvalues.
    rewrite Hs. unfold mret, M_ret. rewrite IH. now rewrite <- app_assoc.
Qed.

(** Building rows never touches the backend, whether it completes or not. *)
Lemma emit_rows_backend dbentry kind tupstore b :
  backend_after (emit_rows host dbentry kind tupstore b) = b.
Proof.
  unfold emit_rows.
  destruct dbentry as [e|]; [|reflexivity].
  destruct (functions e); [|reflexivity].
  destruct kind; [apply hash_seq_backend|].
  destruct (tables e); [apply hash_seq_backend | reflexivity].
Qed.

(** Where the rows of a completed call come from. *)
Lemma emit_rows_returns dbentry kind b rows b' :
  emit_rows host dbentry kind [] b = Return rows b' ->
  match dbentry with
  | Some e =>
      match functions e, kind with
      | Some fs, POWA_STAT_FUNCTION => rows = map func_row fs
      | Some _, POWA_STAT_TABLE =>
          exists tabs, tables e = Some tabs /\ rows = map tab_row tabs
      | None, _ => rows = []
      end
  | None => rows = []
  end.
Proof.
  unfold emit_rows.
  destruct dbentry as [e|]; [|now intros [= <- _]].
  destruct (functions e) as [fs|]; [|now intros [= <- _]].
  destruct kind.
  - intros H. now apply hash_seq_returns in H as [-> _].
  - destruct (tables e) as [tabs|]; [|discriminate].
    intros H. apply hash_seq_returns in H as [-> _]. eauto.
Qed.

End Calls.

Lemma caller_ok_dec fcinfo : caller_ok fcinfo \/ ~ caller_ok fcinfo.
Proof.
  unfold caller_ok.
  destruct (resultinfo fcinfo) as [r|] eqn:Hr;
    [|right; intros [(r & [=] & _) _]].
  destruct (type r) eqn:Ht;
    [|right; intros [(r' & [= <-] & Ht' & _) _]; congruence].
  destruct (Z.eq_dec (Z.land (allowedModes r) SFRM_Materialize) 0) as [Hm|Hm];
    [right; intros [(r' & [= <-] & _ & Hm') _]; contradiction|].
  destruct (call_result_type fcinfo) eqn:Hc;
    try solve [right; intros [_ [=]]].
  left. split; [eauto | reflexivity].
Qed.

Lemma sample_call_ok dbid : caller_ok (sample_call dbid).
Proof.
  split; [|reflexivity]. eexists. split; [reflexivity|].
  split; [reflexivity | discriminate].
Qed.

Lemma sample_host_stores answer : stores_all (sample_host answer None).
Proof. intros tupstore r. reflexivity. Qed.

(** A call that returns passed the checks on its caller. *)
Lemma returns_caller_ok host fcinfo kind b rows b' :
  powa_stat_common host fcinfo kind b = Return rows b' -> caller_ok fcinfo.
Proof.
  intros H. destruct (caller_ok_dec fcinfo) as [Hok|Hn]; [exact Hok|].
  destruct (check_caller_fails fcinfo b Hn) as (e & He & _).
  unfold powa_stat_common, mbind, M_bind in H. rewrite He in H. discriminate.
Qed.

(** The rows of a completed call are the rows of the entries the
    collector holds for the target database, in the order of the table. *)
Lemma returns_rows host fcinfo kind b rows b' :
  powa_stat_common host fcinfo kind b = Return rows b' ->
  b' = mkBackend (MyDatabaseId b) None /\
  exists dbentry,
    collector host (arg0 fcinfo) (arg0 fcinfo) = Some dbentry /\
    match dbentry with
    | Some e =>
        match functions e, kind with
        | Some fs, POWA_STAT_FUNCTION => rows = map func_row fs
        | Some _, POWA_STAT_TABLE =>
            exists tabs, tables e = Some tabs /\ rows = map tab_row tabs
        | None, _ => rows = []
        end
    | None => rows = []
    end.
Proof.
  intros H. pose proof (returns_caller_ok _ _ _ _ _ _ H) as Hok.
  rewrite powa_stat_common_unfold in H by exact Hok.
  destruct (collector host (arg0 fcinfo) (arg0 fcinfo)) as [dbentry|];
    [|discriminate].
  pose proof (emit_rows_backend host dbentry kind []
                (mkBackend (MyDatabaseId b) (Some (arg0 fcinfo)))) as Hb.
  destruct (emit_rows host dbentry kind [] _) as [rows0 b0|] eqn:E; [|discriminate].
  cbn in Hb. subst b0. injection H as <- <-.
  split; [reflexivity|]. exists dbentry. split; [reflexivity|].
  now apply emit_rows_returns in E.
Qed.

Lemma stat_functions_present host fcinfo kind b e fs :
  caller_ok fcinfo -> stores_all host ->
  collector host (arg0 fcinfo) (arg0 fcinfo) = Some (Some e) ->
  functions e = Some fs ->
  powa_stat_common host fcinfo kind b =
  match kind with
  | POWA_STAT_FUNCTION => Return (map func_row fs) (mkBackend (MyDatabaseId b) None)
  | POWA_STAT_TABLE =>
      match tables e with
      | Some tabs => Return (map tab_row tabs) (mkBackend (MyDatabaseId b) None)
      | None => Raise NullHashTable (mkBackend (MyDatabaseId b) (Some (arg0 fcinfo)))
      end
  end.
Proof.
  intros Hok Hs Hc Hf. rewrite powa_stat_common_unfold by exact Hok.
  rewrite Hc. unfold emit_rows. rewrite Hf. destruct kind.
  - now rewrite hash_seq_stores.
  - destruct (tables e); [now rewrite hash_seq_stores | reflexivity].
Qed.




(** C6: when the collector has no entry for the database, both
    [powa_stat_user_functions] and [powa_stat_all_rel] return an empty
    tuplestore and raise nothing. *)
Theorem C6_no_entry_is_empty host fcinfo kind b :
  caller_ok fcinfo ->
  collector host (arg0 fcinfo) (arg0 fcinfo) = Some None ->
  powa_stat_common host fcinfo kind b = Return [] (mkBackend (MyDatabaseId b) None) /\
  powa_stat_user_functions host fcinfo b = Return [] (mkBackend (MyDatabaseId b) None) /\
  powa_stat_all_rel host fcinfo b = Return [] (mkBackend (MyDatabaseId b) None).
Proof.
  intros Hok Hc.
  assert (H : forall k, powa_stat_common host fcinfo k b =
                        Return [] (mkBackend (MyDatabaseId b) None)).
  { intros k. rewrite powa_stat_common_unfold by exact Hok. now rewrite Hc. }
  unfold powa_stat_user_functions, powa_stat_all_rel. now rewrite !H.
Qed.

Lemma C6_no_entry_is_empty_witness :
  powa_stat_all_rel (sample_host (Some None) None) (sample_call 99)
    (mkBackend 1 (Some 1)) = Return [] (mkBackend 1 None) /\
  powa_stat_user_functions (sample_host (Some None) None) (sample_call 99)
    (mkBackend 1 (Some 1)) = Return [] (mkBackend 1 None).
Proof.
  destruct (C6_no_entry_is_empty (sample_host (Some None) None) (sample_call 99)
              POWA_STAT_TABLE (mkBackend 1 (Some 1))) as (_ & Hf & Ht).
  - apply sample_call_ok.
  - reflexivity.
  - split; [exact Ht | exact Hf].
Defined.

(** C9: when a check on the caller fails (no [ReturnSetInfo], materialize
    mode not allowed, or a result type that is not a row type) the error
    is raised with the backend as it was: [MyDatabaseId] has not been
    overridden and the statistics cache has not been cleared. *)
Theorem C9_contract_error_leaves_backend host fcinfo kind b :
  ~ caller_ok fcinfo ->
  exists e, powa_stat_common host fcinfo kind b = Raise e b /\
            (e = CannotAcceptSet \/ e = MaterializeNotAllowed \/ e = RowTypeRequired).
Proof.
  intros Hn. destruct (check_caller_fails fcinfo b Hn) as (e & He & Hkind).
  exists e. split; [|exact Hkind].
  unfold powa_stat_common, mbind, M_bind. now rewrite He.
Qed.

Lemma C9_contract_error_leaves_backend_witness :
  let host := sample_host (Some (Some (three_relations (Some [])))) None in
  let b := mkBackend 1 (Some 7) in
  powa_stat_common host (mkFcinfo 16384 None TYPEFUNC_COMPOSITE) POWA_STAT_TABLE b
    = Raise CannotAcceptSet b /\
  powa_stat_common host
    (mkFcinfo 16384 (Some (mkRsinfo T_ReturnSetInfo 1)) TYPEFUNC_COMPOSITE)
    POWA_STAT_TABLE b = Raise MaterializeNotAllowed b /\
  powa_stat_common host
    (mkFcinfo 16384 (Some (mkRsinfo T_ReturnSetInfo 2)) TYPEFUNC_SCALAR)
    POWA_STAT_FUNCTION b = Raise RowTypeRequired b.
Proof.
  cbv zeta.
  destruct (C9_contract_error_leaves_backend
              (sample_host (Some (Some (three_relations (Some [])))) None)
              (mkFcinfo 16384 None TYPEFUNC_COMPOSITE) POWA_STAT_TABLE
              (mkBackend 1 (Some 7))) as (e & He & _).
  - intros [(r & Hr & _) _]. discriminate Hr.
  - split; [|split]; reflexivity.
Defined.

(** ** Errors after the checks *)

(** C2, as stated, fails: when the fetch raises, the error leaves the
    function with [MyDatabaseId] still set to the target database (2
    here), not to the database of the backend (1). *)
Lemma C2_counterexample :
  ~ (forall host fcinfo kind b e b',
        caller_ok fcinfo ->
        powa_stat_common host fcinfo kind b = Raise e b' ->
        MyDatabaseId b' = MyDatabaseId b /\ pgStatSnapshot b' = None).
Proof.
  intros H.
  destruct (H (sample_host None None) (sample_call 2) POWA_STAT_TABLE
              (mkBackend 1 None) HostError (mkBackend 2 None)) as [Hid _].
  - apply sample_call_ok.
  - reflexivity.
  - discriminate Hid.
Qed.

(** C2, amended: for a call that passed the checks on its caller,
    - if it returns, [MyDatabaseId] is back to its value and the cache
      is cleared;
    - if building or storing a row fails, [MyDatabaseId] is back to its
      value already (l.357 runs before the rows), and the cache is left
      as the fetch filled it, for the target database: the clearing of
      l.462 is not reached;
    - if the fetch itself fails, the error leaves with [MyDatabaseId]
      set to the target database. *)
Theorem C2_restore_on_each_path host fcinfo kind b :
  caller_ok fcinfo ->
  (forall rows b',
     powa_stat_common host fcinfo kind b = Return rows b' ->
     b' = mkBackend (MyDatabaseId b) None) /\
  (forall dbentry e b',
     collector host (arg0 fcinfo) (arg0 fcinfo) = Some dbentry ->
     powa_stat_common host fcinfo kind b = Raise e b' ->
     b' = mkBackend (MyDatabaseId b) (Some (arg0 fcinfo))) /\
  (collector host (arg0 fcinfo) (arg0 fcinfo) = None ->
     powa_stat_common host fcinfo kind b =
     Raise HostError (mkBackend (arg0 fcinfo) None)).
Proof.
  intros Hok. split; [|split].
  - intros rows b' H. now apply returns_rows in H as [-> _].
  - intros dbentry e b' Hc H.
    rewrite powa_stat_common_unfold in H by exact Hok. rewrite Hc in H.
    pose proof (emit_rows_backend host dbentry kind []
                  (mkBackend (MyDatabaseId b) (Some (arg0 fcinfo)))) as Hb.
    destruct (emit_rows host dbentry kind [] _) as [|e0 b0]; [discriminate|].
    cbn in Hb. now injection H as _ <-.
  - intros Hc. rewrite powa_stat_common_unfold by exact Hok. now rewrite Hc.
Qed.

Lemma C2_restore_on_each_path_witness :
  let full := sample_host (Some (Some (three_relations (Some [])))) (Some 1%nat) in
  let down := sample_host None None in
  powa_stat_all_rel full (sample_call 16384) (mkBackend 1 None) =
    Raise HostError (mkBackend 1 (Some 16384)) /\
  powa_stat_all_rel down (sample_call 16384) (mkBackend 1 None) =
    Raise HostError (mkBackend 16384 None).
Proof.
  cbv zeta.
  destruct (C2_restore_on_each_path (sample_host None None) (sample_call 16384)
              POWA_STAT_TABLE (mkBackend 1 None) (sample_call_ok 16384))
    as (_ & _ & Hdown).
  split; [reflexivity|]. apply Hdown. reflexivity.
Defined.

(** ** What a row holds *)

(** C7: in every row [powa_stat_all_rel] returns, each of the four
    nullable timestamp columns (last vacuum, last autovacuum, last
    analyze, last autoanalyze: columns 13, 15, 17 and 19) is null if and
    only if the timestamp of the entry is 0, and holds that timestamp
    unchanged otherwise. *)
Theorem C7_timestamp_null_iff_zero host fcinfo b rows b' r :
  powa_stat_all_rel host fcinfo b = Return rows b' ->
  In r rows ->
  exists e tabs tabentry,
    collector host (arg0 fcinfo) (arg0 fcinfo) = Some (Some e) /\
    tables e = Some tabs /\ In tabentry tabs /\ r = tab_row tabentry /\
    timestamp_column r 13 (vacuum_timestamp tabentry) /\
    timestamp_column r 15 (autovac_vacuum_timestamp tabentry) /\
    timestamp_column r 17 (analyze_timestamp tabentry) /\
    timestamp_column r 19 (autovac_analyze_timestamp tabentry).
Proof.
  intros H Hin. apply returns_rows in H as (_ & dbentry & Hc & Hrows).
  destruct dbentry as [e|]; [|subst rows; contradiction].
  destruct (functions e); [|subst rows; contradiction].
  destruct Hrows as (tabs & Ht & ->).
  apply in_map_iff in Hin as (tabentry & <- & Hin).
  exists e, tabs, tabentry. repeat (split; [assumption || reflexivity|]).
  apply tab_row_timestamps.
Qed.

Lemma C7_timestamp_null_iff_zero_witness :
  let r := tab_row (sample_tab 16386) in
  nulls r !! 13%nat = Some true /\ nulls r !! 15%nat = Some true /\
  values r !! 17%nat = Some (TimestampTzGetDatum 715000000) /\
  values r !! 19%nat = Some (TimestampTzGetDatum 716000000).
Proof.
  cbv zeta.
  destruct (C7_timestamp_null_iff_zero
              (sample_host (Some (Some (three_relations (Some [])))) None)
              (sample_call 16384) (mkBackend 1 None)
              (map tab_row [sample_tab 16385; sample_tab 16386; sample_tab 16387])
              (mkBackend 1 None) (tab_row (sample_tab 16386)))
    as (e & tabs & t & _ & _ & _ & Hr & H13 & H15 & H17 & H19).
  - reflexivity.
  - right. left. reflexivity.
  - repeat split; reflexivity.
Defined.

(** C8: every column of a returned row that carries a counter holds the
    counter of the entry the row was built from, unchanged, with two
    exceptions: the total and self time of a function are the counters
    divided by 1000 (the counter converted to [double], divided by
    1000.0 in [double]), and the twelfth column of a relation row is
    [blocks_fetched - blocks_hit] (in 64-bit arithmetic, so the plain
    difference whenever that is a 64-bit value). *)
Theorem C8_counters_copied host fcinfo kind b rows b' r :
  powa_stat_common host fcinfo kind b = Return rows b' ->
  In r rows ->
  exists e, collector host (arg0 fcinfo) (arg0 fcinfo) = Some (Some e) /\
  match kind with
  | POWA_STAT_FUNCTION =>
      exists fs f total self,
        functions e = Some fs /\ In f fs /\
        column r 0 (ObjectIdGetDatum (functionid f)) /\
        column r 1 (Int64GetDatum (f_numcalls f)) /\
        column r 2 (Float8GetDatum total) /\
        column r 3 (Float8GetDatum self) /\
        total = float8_div (float8_of_int64 (f_total_time f)) (float8_of_int64 1000) /\
        self = float8_div (float8_of_int64 (f_self_time f)) (float8_of_int64 1000) /\
        length (values r) = POWA_STAT_FUNC_COLS
  | POWA_STAT_TABLE =>
      exists tabs t,
        tables e = Some tabs /\ In t tabs /\
        column r 0 (ObjectIdGetDatum (tableid t)) /\
        column r 1 (Int64GetDatum (numscans t)) /\
        column r 2 (Int64GetDatum (tuples_returned t)) /\
        column r 3 (Int64GetDatum (tuples_fetched t)) /\
        column r 4 (Int64GetDatum (tuples_inserted t)) /\
        column r 5 (Int64GetDatum (tuples_updated t)) /\
        column r 6 (Int64GetDatum (tuples_deleted t)) /\
        column r 7 (Int64GetDatum (tuples_hot_updated t)) /\
        column r 8 (Int64GetDatum (n_live_tuples t)) /\
        column r 9 (Int64GetDatum (n_dead_tuples t)) /\
        column r 10 (Int64GetDatum (changes_since_analyze t)) /\
        column r 11 (Int64GetDatum (int64 (blocks_fetched t - blocks_hit t))) /\
        (- 2 ^ 63 <= blocks_fetched t - blocks_hit t < 2 ^ 63 ->
         column r 11 (Int64GetDatum (blocks_fetched t - blocks_hit t))) /\
        column r 12 (Int64GetDatum (blocks_hit t)) /\
        column r 14 (Int64GetDatum (vacuum_count t)) /\
        column r 16 (Int64GetDatum (autovac_vacuum_count t)) /\
        column r 18 (Int64GetDatum (analyze_count t)) /\
        column r 20 (Int64GetDatum (autovac_analyze_count t)) /\
        length (values r) = POWA_STAT_TAB_COLS
  end.
Proof.
  intros H Hin. apply returns_rows in H as (_ & dbentry & Hc & Hrows).
  destruct dbentry as [e|]; [|subst rows; contradiction].
  exists e. split; [exact Hc|].
  destruct (functions e) as [fs|] eqn:Hf; [|subst rows; contradiction].
  destruct kind.
  - subst rows. apply in_map_iff in Hin as (f & <- & Hin).
    exists fs, f, (div1000 (f_total_time f)), (div1000 (f_self_time f)).
    repeat (split; [first [assumption | split; reflexivity | reflexivity]|]).
    reflexivity.
  - destruct Hrows as (tabs & Ht & ->).
    apply in_map_iff in Hin as (t & <- & Hin).
    exists tabs, t.
    pose proof (tab_row_counters t) as Hcols. cbv zeta in Hcols.
    destruct Hcols as (H0 & H1 & H2 & H3 & H4 & H5 & H6 & H7 & H8 & H9 & H10
                       & H11 & H12 & H14 & H16 & H18 & H20).
    repeat (split; [assumption|]).
    split; [intros Hr; now rewrite <- (int64_id _ Hr)|].
    repeat (split; [assumption|]).
    unfold tab_row, tab_fill, fill, set_timestamp; cbn [fold_left].
    destruct (vacuum_timestamp t =? 0), (autovac_vacuum_timestamp t =? 0),
      (analyze_timestamp t =? 0), (autovac_analyze_timestamp t =? 0); reflexivity.
Qed.

Lemma C8_counters_copied_witness :
  let r := func_row (mkFunc 900 7 5000 1) in
  column r 1 (Int64GetDatum 7) /\
  column r 2 (Float8GetDatum (SpecFloat.S754_finite false 5629499534213120 (-50))) /\
  column r 3 (Float8GetDatum (SpecFloat.S754_finite false 4611686018427388 (-62))).
Proof.
  cbv zeta.
  destruct (C8_counters_copied
              (sample_host (Some (Some one_function)) None)
              (sample_call 16384) POWA_STAT_FUNCTION (mkBackend 1 None)
              [func_row (mkFunc 900 7 5000 1)]
              (mkBackend 1 None) (func_row (mkFunc 900 7 5000 1)) eq_refl
              (or_introl eq_refl))
    as (e & He & fs & f & total & self & Hfs & Hin & _ & H1 & H2 & H3 & Ht & Hs & _).
  injection He as <-. injection Hfs as <-.
  destruct Hin as [<-|[]].
  split; [exact H1|]. split.
  - replace (SpecFloat.S754_finite false 5629499534213120 (-50)) with total
      by (rewrite Ht; reflexivity).
    exact H2.
  - replace (SpecFloat.S754_finite false 4611686018427388 (-62)) with self
      by (rewrite Hs; reflexivity).
    exact H3.
Defined.

(* ===================================================================== *)
(** * Further properties of the scheduler                                 *)
(* ===================================================================== *)

(** One step, by cases on the program point, the signal and the checks. *)
Ltac step_cases w i :=
  destruct w as [?f ?l ?ev]; destruct i as [[?g|] ?el];
  unfold history, positive_waits, running, passes_floor in *;
  unfold step, deliver, exec, powa_sighup, ProcessConfigFile,
    die_on_too_small_frequency, exit, goto, emit, exited;
  cbn [loc powa_frequency events sighup elapsed] in *;
  match goal with
  | l : Loc |- _ => destruct l
  end;
  cbn [loc powa_frequency events] in *;
  repeat match goal with
         | |- context [if ?c then _ else _] =>
             destruct c eqn:?; cbn [loc powa_frequency events andb] in *
         end;
  try discriminate.

Lemma connected_history_work e evs :
  loop_work e -> connected_history evs -> connected_history (e :: evs).
Proof.
  intros He (body & Hb & ->). exists (e :: body). split; [|reflexivity].
  now constructor.
Qed.

Lemma connected_history_start : connected_history [Connect].
Proof. exists []. split; [constructor | reflexivity]. Qed.

Lemma step_history i w : history w -> history (step i w).
Proof.
  intros H. step_cases w i; subst;
    first [ assumption
          | reflexivity
          | apply connected_history_start
          | apply connected_history_work; [exact I | assumption]
          | refine (ex_intro _ _ (ex_intro _ _ (conj _ (conj eq_refl _))));
            [exact I | first [left; reflexivity | right; assumption]] ].
Qed.

Lemma run_history ins : forall w, history w -> history (run ins w).
Proof.
  induction ins as [|i ins IH]; intros w H; [exact H|].
  rewrite run_cons. now apply IH, step_history.
Qed.

Lemma step_positive_waits i w : positive_waits w -> positive_waits (step i w).
Proof.
  intros [Hev Hloc]. step_cases w i;
    (split; [first [assumption | constructor; first [exact I | assumption]] | ]);
    first [exact I | assumption | now apply Z.ltb_lt].
Qed.

Lemma run_positive_waits ins : forall w, positive_waits w -> positive_waits (run ins w).
Proof.
  induction ins as [|i ins IH]; intros w H; [exact H|].
  rewrite run_cons. now apply IH, step_positive_waits.
Qed.

Lemma step_floor i w :
  (running w -> passes_floor (powa_frequency w)) ->
  running (step i w) -> passes_floor (powa_frequency (step i w)).
Proof.
  intros H. step_cases w i; intros Hr; try contradiction;
    try (apply H; exact I);
    repeat match goal with
           | E : (_ && _) = false |- _ => apply andb_false_iff in E as [E|E]
           | E : (_ <? _) = false |- _ => apply Z.ltb_ge in E
           end; lia.
Qed.

Lemma run_floor ins : forall w,
  (running w -> passes_floor (powa_frequency w)) ->
  running (run ins w) -> passes_floor (powa_frequency (run ins w)).
Proof.
  induction ins as [|i ins IH]; intros w H; [exact H|].
  rewrite run_cons. now apply IH, step_floor.
Qed.

Lemma start_history f : history (start f).
Proof. reflexivity. Qed.

Lemma connected_history_counts evs :
  connected_history evs ->
  length (List.filter (fun e => match e with Connect => true | _ => false end) evs)
  = 1%nat.
Proof.
  intros (body & Hb & ->). rewrite List.filter_app, length_app. cbn.
  induction Hb as [|e body He Hb IH]; [reflexivity|].
  destruct e; cbn in *; try contradiction; exact IH.
Qed.

(** X1: whatever the configuration, the signals and the durations, the
    worker connects at most once, is connected whenever it is inside the
    loop, and every snapshot and every wait of its history comes after
    the connection. *)
Theorem connect_precedes_work (f : Z) (ins : list Input) :
  let w := run ins (start f) in
  (connects w <= 1)%nat /\
  (in_loop w -> connects w = 1%nat) /\
  ((0 < snapshots w + waits w)%nat ->
   exists body, Forall loop_work body /\
     (events w = body ++ [Connect] \/
      exists l, exit_log l /\ events w = l :: body ++ [Connect])).
Proof.
  cbv zeta. pose proof (run_history ins (start f) (start_history f)) as H.
  unfold history, connects, snapshots, waits, in_loop in *.
  destruct (run ins (start f)) as [f' l ev]; cbn [loc events powa_frequency] in *.
  destruct l; subst; cbn;
    try (split; [lia | split; [intros [] | lia]]);
    try (rewrite (connected_history_counts _ H);
         split; [lia | split; [reflexivity |]];
         intros _; destruct H as (body & Hb & ->); eauto).
  destruct H as (l & rest & Hl & -> & [-> | Hc]).
  - destruct l; cbn in *; try contradiction;
      (split; [lia | split; [intros [] | lia]]).
  - pose proof (connected_history_counts _ Hc) as Hn.
    destruct Hc as (body & Hb & ->).
    destruct l; cbn in *; try contradiction;
      (split; [lia | split; [intros [] |]]); intros _; exists body;
      (split; [exact Hb | right; eexists; split; [|reflexivity]; exact I]).
Qed.

(** X2: the [exit] calls of the file are never silent.  Whenever the
    worker has left through one of them (termination by the host, on
    SIGTERM or on an ERROR, is not an [exit] of the file), the last thing
    it did was to log one of its three messages, the status is 1, and
    nothing follows, whatever arrives afterwards. *)
Theorem exit_is_logged (f : Z) (ins : list Input) (c : Z) :
  loc (run ins (start f)) = Exited c ->
  c = 1 /\
  (exists l rest, exit_log l /\ events (run ins (start f)) = l :: rest) /\
  (forall more, run (ins ++ more) (start f) = run ins (start f)).
Proof.
  intros Hc. split; [|split].
  - assert (H0 : exits_with_one (start f)) by (intros c'; discriminate).
    exact (run_exits_with_one ins _ H0 c Hc).
  - pose proof (run_history ins (start f) (start_history f)) as H.
    unfold history in H. rewrite Hc in H.
    destruct H as (l & rest & Hl & He & _). eauto.
  - intros more. revert Hc. generalize (start f).
    induction ins as [|i ins IH]; intros w Hc; cbn [app].
    + now apply run_exited with (c := c).
    + rewrite !run_cons. now apply IH.
Qed.

Lemma exit_is_logged_witness :
  run [mkInput None 0; mkInput None 0; mkInput (Some 30000) 0] (start (-1)) =
  run [mkInput None 0; mkInput None 0] (start (-1)).
Proof.
  destruct (exit_is_logged (-1) [mkInput None 0; mkInput None 0] 1) as (_ & _ & H).
  - reflexivity.
  - exact (H [mkInput (Some 30000) 0]).
Defined.

(** X3: every timeout the worker hands to [WaitLatch] is positive, over
    every run: it never asks for a wait of zero or less. *)
Theorem waits_are_positive (f : Z) (ins : list Input) (t : Z) :
  In (WaitLatch t) (events (run ins (start f))) -> 0 < t.
Proof.
  intros Hin.
  assert (H0 : positive_waits (start f)) by (split; [constructor | exact I]).
  destruct (run_positive_waits ins _ H0) as [Hall _].
  exact (proj1 (List.Forall_forall _ _) Hall _ Hin).
Qed.

Lemma waits_are_positive_witness :
  let q := mkInput None 700000 in
  events (run [q; q; q; q; q; q; q] (start 300000)) =
    [WaitLatch 299300; TakeSnapshot; Connect] /\ 0 < 299300.
Proof.
  pose (q := mkInput None 700000).
  split; [reflexivity|].
  apply (waits_are_positive 300000 [q; q; q; q; q; q; q]). left. reflexivity.
Defined.

(** X4: as long as the worker has not exited, and once its first check
    is done, its interval is never positive and below the floor: no
    reload can leave it running with such a value. *)
Theorem floor_holds_while_running (f : Z) (ins : list Input) :
  running (run ins (start f)) ->
  ~ (0 < powa_frequency (run ins (start f)) < min_powa_frequency).
Proof.
  apply run_floor. intros [].
Qed.

Lemma floor_holds_while_running_witness :
  ~ (0 < powa_frequency
           (run [mkInput None 0; mkInput (Some 6000) 0; mkInput (Some 0) 0]
                (start 300000))
     < min_powa_frequency).
Proof.
  apply (floor_holds_while_running 300000
           [mkInput None 0; mkInput (Some 6000) 0; mkInput (Some 0) 0]).
  exact I.
Defined.

(** X5: a reload whose value passes the floor check never stops the
    worker and leaves no trace in its history; the value is read again
    when the next wait is computed (l.238), so a reload during the
    snapshot already decides the wait that follows it, while a timeout
    that has been computed is handed to [WaitLatch] as it is. *)
Theorem reload_is_read_at_the_next_wait (w : Worker) (i : Input) (f' : Z) :
  running w -> sighup i = Some f' -> passes_floor f' ->
  deliver i w = mkWorker f' (loc w) (events w) /\
  (forall e, loc w = AtCompute e ->
     step i w = mkWorker f' (if 0 <? time_to_wait f' e
                             then AtWaitLatch (time_to_wait f' e)
                             else AtLoopTop) (events w)) /\
  (forall t, loc w = AtWaitLatch t ->
     step i w = mkWorker f' AtLoopTop (WaitLatch t :: events w)).
Proof.
  intros Hr Hs Hf.
  assert (Hd : deliver i w = mkWorker f' (loc w) (events w)).
  { unfold deliver, running in *. rewrite Hs.
    destruct (loc w) eqn:E; try contradiction;
      unfold powa_sighup; rewrite die_passes by exact Hf;
      unfold ProcessConfigFile; now rewrite E. }
  split; [exact Hd|]. split.
  - intros e He. unfold step. rewrite Hd, He. unfold exec; cbn [loc powa_frequency].
    now destruct (0 <? time_to_wait f' e).
  - intros t Ht. unfold step. rewrite Hd, Ht. reflexivity.
Qed.

Lemma reload_is_read_at_the_next_wait_witness :
  step (mkInput (Some 10000) 0) (mkWorker 300000 (AtCompute 2500000) [TakeSnapshot; Connect])
  = mkWorker 10000 (AtWaitLatch 7500) [TakeSnapshot; Connect].
Proof.
  destruct (reload_is_read_at_the_next_wait
              (mkWorker 300000 (AtCompute 2500000) [TakeSnapshot; Connect])
              (mkInput (Some 10000) 0) 10000) as (_ & Hc & _).
  - exact I.
  - reflexivity.
  - unfold passes_floor, min_powa_frequency. lia.
  - exact (Hc 2500000 eq_refl).
Defined.

(** X6: the timeout never exceeds the interval.  When the clock did not
    run backwards during the snapshot, the wait the worker asks for is
    at most the interval in force, and the time since the start of the
    snapshot plus the wait does not pass the interval. *)
Theorem wait_is_within_interval (freq : Z) (e : instr_time) (ev : list Event)
    (i : Input) (t : Z) :
  quiet i -> 0 <= e ->
  loc (step i (mkWorker freq (AtCompute e) ev)) = AtWaitLatch t ->
  0 < t <= freq /\ freq * 1000 - 1000 < e + t * 1000 <= freq * 1000.
Proof.
  intros Hq He Hl. rewrite step_quiet in Hl by exact Hq.
  unfold exec in Hl; cbn [loc powa_frequency] in Hl.
  destruct (0 <? time_to_wait freq e) eqn:E; [|discriminate].
  injection Hl as <-. apply Z.ltb_lt in E.
  unfold time_to_wait in *. Z.to_euclidean_division_equations. lia.
Qed.

Lemma wait_is_within_interval_witness :
  0 < 3799 <= 5000 /\ 5000 * 1000 - 1000 < 1200500 + 3799 * 1000 <= 5000 * 1000.
Proof.
  apply (wait_is_within_interval 5000 1200500 [] (mkInput None 0) 3799).
  - reflexivity.
  - lia.
  - reflexivity.
Defined.

(** ** Rounds of the loop *)

Lemma run_app ins1 ins2 : forall w, run (ins1 ++ ins2) w = run ins2 (run ins1 w).
Proof.
  induction ins1 as [|i ins1 IH]; intros w; [reflexivity|].
  cbn [app]. rewrite !run_cons. apply IH.
Qed.

Lemma round_runs freq d ev :
  0 <= freq -> d < freq ->
  run (round d) (mkWorker freq AtLoopTop ev) =
  mkWorker freq AtLoopTop (WaitLatch (freq - d) :: TakeSnapshot :: ev).
Proof.
  intros Hf Hd. unfold round. rewrite !run_cons.
  assert (S1 : step (mkInput None 0) (mkWorker freq AtLoopTop ev) =
               mkWorker freq AtSnapshot ev).
  { rewrite step_quiet by reflexivity. unfold exec; cbn [loc powa_frequency].
    apply Z.ltb_ge in Hf. now rewrite Hf. }
  rewrite S1.
  assert (S2 : step (mkInput None (d * 1000)) (mkWorker freq AtSnapshot ev) =
               mkWorker freq (AtCompute (d * 1000)) (TakeSnapshot :: ev))
    by now rewrite step_quiet.
  rewrite S2.
  rewrite compute_sleeps by (try reflexivity; rewrite time_to_wait_whole; lia).
  rewrite time_to_wait_whole. now rewrite step_quiet.
Qed.

Lemma total_wait_app freq l ev1 ev2 :
  total_wait (mkWorker freq l (ev1 ++ ev2)) =
  total_wait (mkWorker freq l ev1) + total_wait (mkWorker freq l ev2).
Proof.
  unfold total_wait; cbn [events].
  induction ev1 as [|e ev1 IH]; cbn; [reflexivity|].
  destruct e; rewrite IH; lia.
Qed.

(** X7: drift compensation over any number of rounds.  With a positive
    interval, no signal, and snapshots that each take a whole number of
    milliseconds less than the interval, every round is one snapshot
    followed by one wait of the interval minus the duration, so that the
    durations and the waits of [n] rounds add up to [n] intervals. *)
Theorem rounds_keep_the_interval (freq : Z) (ds : list Z) (ev : list Event) :
  0 < freq -> Forall (fun d => d < freq) ds ->
  let w := mkWorker freq AtLoopTop ev in
  let w' := run (flat_map round ds) w in
  w' = mkWorker freq AtLoopTop
         (rev (flat_map (fun d => [TakeSnapshot; WaitLatch (freq - d)]) ds) ++ ev) /\
  (fold_right Z.add 0 ds + (total_wait w' - total_wait w)
   = Z.of_nat (length ds) * freq).
Proof.
  intros Hf Hds. cbv zeta.
  assert (Hrun : forall ev0,
            run (flat_map round ds) (mkWorker freq AtLoopTop ev0) =
            mkWorker freq AtLoopTop
              (rev (flat_map (fun d => [TakeSnapshot; WaitLatch (freq - d)]) ds)
               ++ ev0)).
  { induction Hds as [|d ds Hd Hds IH]; intros ev0; [reflexivity|].
    cbn [flat_map]. rewrite run_app, round_runs by lia. rewrite IH.
    rewrite rev_app_distr. cbn [rev app]. now rewrite <- app_assoc. }
  split; [apply Hrun|]. rewrite Hrun, total_wait_app.
  clear Hrun. induction Hds as [|d ds Hd Hds IH]; [cbn; lia|].
  cbn [flat_map fold_right length]. rewrite rev_app_distr. cbn [rev app].
  rewrite total_wait_app.
  replace (total_wait (mkWorker freq AtLoopTop [WaitLatch (freq - d); TakeSnapshot]))
    with (freq - d) by (unfold total_wait; cbn; lia).
  lia.
Qed.

Lemma rounds_keep_the_interval_witness :
  run (flat_map round [1200; 0; 4999]) (mkWorker 5000 AtLoopTop [Connect]) =
  mkWorker 5000 AtLoopTop
    [WaitLatch 1; TakeSnapshot; WaitLatch 5000; TakeSnapshot;
     WaitLatch 3800; TakeSnapshot; Connect].
Proof.
  destruct (rounds_keep_the_interval 5000 [1200; 0; 4999] [Connect]) as [H _].
  - lia.
  - repeat constructor.
  - exact H.
Defined.

(* ===================================================================== *)
(** * Loading the module and starting the worker                          *)
(* ===================================================================== *)

(** X8: the library registers only while the postmaster preloads
    libraries, then exactly one worker, restarted after 10 seconds, and
    five settings; every integer setting starts from a boot value that
    its own bounds admit. *)
Theorem boot_values_are_admitted (p : bool) (r : Init.Registered) :
  Init._PG_init p = Init.Registers r ->
  p = true /\
  length (Init.variables r) = 5%nat /\
  (exists bw, Init.workers r = [bw] /\ Init.bgw_restart_time bw = 10) /\
  (forall v boot, In v (Init.variables r) -> Init.boot_of v = Some boot ->
                  Init.admits v boot).
Proof.
  destruct p; [|discriminate]. intros [= <-].
  split; [reflexivity|]. split; [reflexivity|]. split; [eexists; split; reflexivity|].
  intros v boot Hin Hb. cbn in Hin.
  destruct Hin as [<-|[<-|[<-|[<-|[<-|[]]]]]]; cbn in Hb; try discriminate;
    injection Hb as <-; vm_compute; split; discriminate.
Qed.

Lemma boot_values_are_admitted_witness :
  Init.admits
    (Init.mkVar "powa.retention" Init.powa_retention
       (Init.IntSetting (Init.HOURS_PER_DAY * Init.MINS_PER_HOUR) 0
          (Init.INT_MAX / Init.SECS_PER_MINUTE))
       Init.PGC_SUSET Init.GUC_UNIT_MIN)
    1440.
Proof.
  destruct (Init._PG_init true) as [r|] eqn:E; [|discriminate E].
  destruct (boot_values_are_admitted true r E) as (_ & _ & _ & H).
  apply H; [|reflexivity].
  injection E as <-. right. right. left. reflexivity.
Defined.

(** X9: what the worker does with each value the bounds of powa.frequency
    admit.  The value -1 stops it before it connects; 1 to 4999 stop it
    in its first statement; 0 and 5000 to [INT_MAX / 1000] bring it,
    connected, to the top of its loop.  The bounds of the setting thus
    admit values the worker refuses, and the boot value is one it
    accepts. *)
Theorem admitted_frequencies (p : bool) (r : Init.Registered)
    (v : Init.CustomVariable) (x : Z) (i1 i2 i3 : Input) (ins : list Input) :
  Init._PG_init p = Init.Registers r ->
  In v (Init.variables r) -> Init.valueAddr v = Init.powa_frequency ->
  Init.admits v x -> quiet i2 -> quiet i3 ->
  Init.boot_of v = Some 300000 /\
  (x < 0 -> x = -1 /\
     run (i1 :: i2 :: ins) (start x) = mkWorker x (Exited 1) [LogDeactivated x]) /\
  (0 < x < min_powa_frequency ->
     run (i1 :: ins) (start x) =
     mkWorker x (Exited 1) [LogTooSmall min_powa_frequency]) /\
  (x = 0 \/ min_powa_frequency <= x ->
     run [i1; i2; i3] (start x) = mkWorker x AtLoopTop [Connect]) /\
  run [i1; i2; i3] (start 300000) = mkWorker 300000 AtLoopTop [Connect].
Proof.
  destruct p; [|discriminate]. intros [= <-] Hin Ha Hx Hq2 Hq3.
  cbn in Hin.
  destruct Hin as [<-|[<-|[<-|[<-|[<-|[]]]]]]; try discriminate Ha.
  unfold Init.admits in Hx; cbn in Hx.
  assert (Hgo : forall y, ~ (0 < y < min_powa_frequency) -> 0 <= y ->
                  run [i1; i2; i3] (start y) = mkWorker y AtLoopTop [Connect]).
  { intros y Hy Hpos. rewrite !run_cons.
    assert (S1 : step i1 (start y) = mkWorker y AtDeactivatedCheck []).
    { unfold step, deliver, exec, start; cbn [loc].
      rewrite die_passes by exact Hy. reflexivity. }
    rewrite S1, (step_quiet i2) by exact Hq2.
    unfold exec at 1; cbn [loc powa_frequency].
    apply Z.ltb_ge in Hpos. rewrite Hpos.
    now rewrite step_quiet by exact Hq3. }
  split; [reflexivity|]. split; [|split; [|split]].
  - intros Hneg. assert (x = -1) by lia. split; [assumption|].
    now apply start_negative.
  - intros Hsmall. rewrite run_cons.
    unfold step, deliver, exec, start; cbn [loc].
    rewrite die_exits by exact Hsmall. cbn.
    now apply run_exited with (c := 1).
  - intros Hok. apply Hgo; unfold min_powa_frequency in *; lia.
  - apply Hgo; unfold min_powa_frequency; lia.
Qed.

Lemma admitted_frequencies_witness :
  let q := mkInput None 0 in
  run [q; q; q] (start 5000) = mkWorker 5000 AtLoopTop [Connect] /\
  run [q] (start 4999) = mkWorker 4999 (Exited 1) [LogTooSmall 5000].
Proof.
  pose (q := mkInput None 0).
  pose (v := Init.mkVar "powa.frequency" Init.powa_frequency
               (Init.IntSetting 300000 (-1) (Init.INT_MAX / 1000))
               Init.PGC_SUSET Init.GUC_UNIT_MS).
  destruct (Init._PG_init true) as [r|] eqn:E; [|discriminate E].
  assert (Hin : In v (Init.variables r)) by (injection E as <-; left; reflexivity).
  split.
  - assert (Hx : Init.admits v 5000) by (vm_compute; split; discriminate).
    destruct (admitted_frequencies true r v 5000 q q q [] E Hin eq_refl Hx
                eq_refl eq_refl) as (_ & _ & _ & Hgo & _).
    apply Hgo. right. unfold min_powa_frequency. lia.
  - reflexivity.
Defined.

(* ===================================================================== *)
(** * Further properties of the extractor                                 *)
(* ===================================================================== *)

(** The loop reads the host through [put_raises] only. *)
Lemma hash_seq_same_store {A} host1 host2 (f : A -> Row) entries :
  (forall ts r, put_raises host1 ts r = put_raises host2 ts r) ->
  forall tupstore b,
    hash_seq (fun e ts => tuplestore_putvalues host1 ts (f e)) entries tupstore b =
    hash_seq (fun e ts => tuplestore_putvalues host2 ts (f e)) entries tupstore b.
Proof.
  intros Hp. induction entries as [|e entries IH]; intros tupstore b; [reflexivity|].
  cbn [hash_seq]. unfold mbind, M_bind, tuplestore_putvalues. rewrite Hp.
  destruct (put_raises host2 tupstore (f e)); [reflexivity|].
  unfold mret, M_ret. apply IH.
Qed.

Lemma emit_rows_same_store host1 host2 dbentry kind tupstore b :
  (forall ts r, put_raises host1 ts r = put_raises host2 ts r) ->
  emit_rows host1 dbentry kind tupstore b = emit_rows host2 dbentry kind tupstore b.
Proof.
  intros Hp. unfold emit_rows.
  destruct dbentry as [e|]; [|reflexivity].
  destruct (functions e); [|reflexivity].
  destruct kind; [now apply hash_seq_same_store|].
  destruct (tables e); [now apply hash_seq_same_store | reflexivity].
Qed.

Lemma check_caller_answer fcinfo b b' :
  answer (check_caller fcinfo b) = answer (check_caller fcinfo b').
Proof.
  unfold check_caller, mbind, M_bind, mret, M_ret, raise, IsA.
  destruct (resultinfo fcinfo) as [r|]; [|reflexivity].
  destruct (type r); [|reflexivity].
  destruct (Z.land (allowedModes r) SFRM_Materialize =? 0); [reflexivity|].
  now destruct (call_result_type fcinfo).
Qed.

Lemma hash_seq_answer host {A} (f : A -> Row) entries : forall ts c1 c2,
  answer (hash_seq (fun e ts => tuplestore_putvalues host ts (f e)) entries ts c1) =
  answer (hash_seq (fun e ts => tuplestore_putvalues host ts (f e)) entries ts c2).
Proof.
  induction entries as [|x entries IH]; intros ts c1 c2; [reflexivity|].
  cbn [hash_seq]. unfold mbind, M_bind, tuplestore_putvalues.
  destruct (put_raises host ts (f x)); [reflexivity|].
  unfold mret, M_ret. apply IH.
Qed.

Lemma emit_rows_answer host dbentry kind ts c1 c2 :
  answer (emit_rows host dbentry kind ts c1) =
  answer (emit_rows host dbentry kind ts c2).
Proof.
  unfold emit_rows.
  destruct dbentry as [e|]; [|reflexivity].
  destruct (functions e); [|reflexivity].
  destruct kind; [apply hash_seq_answer|].
  destruct (tables e); [apply hash_seq_answer | reflexivity].
Qed.

(** X10: a call never shows what an earlier call, or the backend's own
    database, left in the statistics cache.  The rows, or the error, of
    any call are the same from every backend state.  For a caller that
    passes the checks the whole outcome, backend included, is the same
    whatever the cache held before, so a call that follows a completed
    call behaves as if it were the first. *)
Theorem calls_do_not_leak host fcinfo kind b :
  (forall b',
     answer (powa_stat_common host fcinfo kind b') =
     answer (powa_stat_common host fcinfo kind b)) /\
  (caller_ok fcinfo ->
   forall cache,
     powa_stat_common host fcinfo kind (mkBackend (MyDatabaseId b) cache) =
     powa_stat_common host fcinfo kind b) /\
  (caller_ok fcinfo ->
   forall fcinfo0 kind0 rows b0,
     powa_stat_common host fcinfo0 kind0 b = Return rows b0 ->
     powa_stat_common host fcinfo kind b0 = powa_stat_common host fcinfo kind b).
Proof.
  assert (Hcache : caller_ok fcinfo -> forall cache,
            powa_stat_common host fcinfo kind (mkBackend (MyDatabaseId b) cache) =
            powa_stat_common host fcinfo kind b)
    by (intros Hok cache; now rewrite !powa_stat_common_unfold by exact Hok).
  split; [|split; [exact Hcache|]].
  - intros b'. destruct (caller_ok_dec fcinfo) as [Hok|Hn].
    + rewrite !powa_stat_common_unfold by exact Hok.
      destruct (collector host (arg0 fcinfo) (arg0 fcinfo)) as [dbentry|];
        [|reflexivity].
      pose proof (emit_rows_answer host dbentry kind []
                    (mkBackend (MyDatabaseId b') (Some (arg0 fcinfo)))
                    (mkBackend (MyDatabaseId b) (Some (arg0 fcinfo)))) as Ha.
      destruct (emit_rows host dbentry kind [] (mkBackend (MyDatabaseId b') _)),
        (emit_rows host dbentry kind [] (mkBackend (MyDatabaseId b) _));
        cbn in *; congruence.
    + destruct (check_caller_fails fcinfo b Hn) as (e & He & _).
      destruct (check_caller_fails fcinfo b' Hn) as (e' & He' & _).
      pose proof (check_caller_answer fcinfo b b') as Ha.
      rewrite He, He' in Ha. cbn in Ha. injection Ha as ->.
      unfold powa_stat_common, mbind, M_bind. now rewrite He, He'.
  - intros Hok fcinfo0 kind0 rows b0 H.
    apply returns_rows in H as [-> _]. now apply Hcache.
Qed.

Lemma calls_do_not_leak_witness :
  let host := mkHost (fun scope dbid =>
                        if (scope =? dbid) && (dbid =? 16384)
                        then Some (Some (three_relations (Some [sample_func 900])))
                        else Some None)
                     (fun _ _ => false) in
  let first := powa_stat_all_rel host (sample_call 5) (mkBackend 1 (Some 1)) in
  first = Return [] (mkBackend 1 None) /\
  powa_stat_user_functions host (sample_call 16384) (backend_after first) =
  powa_stat_user_functions host (sample_call 16384) (mkBackend 1 (Some 1)).
Proof.
  cbv zeta. split; [reflexivity|].
  destruct (calls_do_not_leak
              (mkHost (fun scope dbid =>
                         if (scope =? dbid) && (dbid =? 16384)
                         then Some (Some (three_relations (Some [sample_func 900])))
                         else Some None)
                      (fun _ _ => false))
              (sample_call 16384) POWA_STAT_FUNCTION (mkBackend 1 (Some 1)))
    as (_ & _ & Hnext).
  exact (Hnext (sample_call_ok 16384) (sample_call 5) POWA_STAT_TABLE []
               (mkBackend 1 None) eq_refl).
Defined.

(** X11: the call asks the collector one thing only: the entry of the
    target database, read with the target database in scope.  Two hosts
    that agree there, and store rows alike, give the same outcome. *)
Theorem only_the_target_is_read host1 host2 fcinfo kind b :
  collector host1 (arg0 fcinfo) (arg0 fcinfo) =
  collector host2 (arg0 fcinfo) (arg0 fcinfo) ->
  (forall ts r, put_raises host1 ts r = put_raises host2 ts r) ->
  powa_stat_common host1 fcinfo kind b = powa_stat_common host2 fcinfo kind b.
Proof.
  intros Hc Hp. destruct (caller_ok_dec fcinfo) as [Hok|Hn].
  - rewrite !powa_stat_common_unfold by exact Hok. rewrite Hc.
    destruct (collector host2 (arg0 fcinfo) (arg0 fcinfo)); [|reflexivity].
    now rewrite (emit_rows_same_store host1 host2).
  - destruct (check_caller_fails fcinfo b Hn) as (e & He & _).
    unfold powa_stat_common, mbind, M_bind. now rewrite He.
Qed.

Lemma only_the_target_is_read_witness :
  let e := three_relations (Some []) in
  powa_stat_all_rel
    (mkHost (fun scope dbid => if dbid =? 16384 then Some (Some e) else None)
            (fun _ _ => false))
    (sample_call 16384) (mkBackend 1 None) =
  powa_stat_all_rel (sample_host (Some (Some e)) None)
    (sample_call 16384) (mkBackend 1 None).
Proof.
  cbv zeta. unfold powa_stat_all_rel.
  apply only_the_target_is_read; reflexivity.
Defined.

(** X12: a completed call holds every entry of the table it read, one
    row per entry, in the order of the table: rows are never dropped,
    repeated or returned in part.  When the host stores every row the
    call completes; when it does not, the only error is the host's. *)
Theorem one_row_per_entry host fcinfo b e tabs fs :
  caller_ok fcinfo ->
  collector host (arg0 fcinfo) (arg0 fcinfo) = Some (Some e) ->
  tables e = Some tabs -> functions e = Some fs ->
  (forall rows b', powa_stat_all_rel host fcinfo b = Return rows b' ->
     rows = map tab_row tabs /\ length rows = length tabs) /\
  (forall rows b', powa_stat_user_functions host fcinfo b = Return rows b' ->
     rows = map func_row fs /\ length rows = length fs) /\
  (forall kind err b', powa_stat_common host fcinfo kind b = Raise err b' ->
     err = HostError) /\
  (stores_all host ->
     powa_stat_all_rel host fcinfo b =
       Return (map tab_row tabs) (mkBackend (MyDatabaseId b) None) /\
     powa_stat_user_functions host fcinfo b =
       Return (map func_row fs) (mkBackend (MyDatabaseId b) None)).
Proof.
  intros Hok Hc Ht Hf. split; [|split; [|split]].
  - intros rows b' H. apply returns_rows in H as (_ & dbentry & Hc' & Hrows).
    rewrite Hc in Hc'. injection Hc' as <-. rewrite Hf in Hrows.
    destruct Hrows as (tabs' & Ht' & ->). rewrite Ht in Ht'. injection Ht' as <-.
    split; [reflexivity | apply length_map].
  - intros rows b' H. apply returns_rows in H as (_ & dbentry & Hc' & Hrows).
    rewrite Hc in Hc'. injection Hc' as <-. rewrite Hf in Hrows. subst rows.
    split; [reflexivity | apply length_map].
  - intros kind err b' H. rewrite powa_stat_common_unfold in H by exact Hok.
    rewrite Hc in H. unfold emit_rows in H. rewrite Hf, Ht in H.
    assert (Hseq : forall A (f : A -> Row) entries ts c err' c',
              hash_seq (fun x ts => tuplestore_putvalues host ts (f x)) entries ts c
              = Raise err' c' -> err' = HostError).
    { intros A f entries. induction entries as [|x entries IH]; intros ts c err' c';
        [discriminate|].
      cbn [hash_seq]. unfold mbind, M_bind, tuplestore_putvalues.
      destruct (put_raises host ts (f x)); [now intros [= <- _]|].
      unfold mret, M_ret. apply IH. }
    destruct kind.
    + destruct (hash_seq _ fs [] _) eqn:E; [discriminate|].
      injection H as <- _. exact (Hseq _ _ _ _ _ _ _ E).
    + destruct (hash_seq _ tabs [] _) eqn:E; [discriminate|].
      injection H as <- _. exact (Hseq _ _ _ _ _ _ _ E).
  - intros Hs. unfold powa_stat_all_rel, powa_stat_user_functions.
    rewrite !(stat_functions_present host fcinfo _ b e fs) by assumption.
    now rewrite Ht.
Qed.

Lemma one_row_per_entry_witness :
  let e := mkDB 16384 (Some [sample_tab 1; sample_tab 2])
                (Some [sample_func 7; sample_func 8; sample_func 9]) in
  powa_stat_user_functions (sample_host (Some (Some e)) None) (sample_call 16384)
    (mkBackend 1 None) =
  Return [func_row (sample_func 7); func_row (sample_func 8); func_row (sample_func 9)]
         (mkBackend 1 None).
Proof.
  cbv zeta.
  destruct (one_row_per_entry
              (sample_host (Some (Some (mkDB 16384 (Some [sample_tab 1; sample_tab 2])
                 (Some [sample_func 7; sample_func 8; sample_func 9])))) None)
              (sample_call 16384) (mkBackend 1 None) _ _ _
              (sample_call_ok 16384) eq_refl eq_refl eq_refl) as (_ & _ & _ & H).
  destruct (H (sample_host_stores _)) as [_ Hf]. exact Hf.
Defined.

(** X14: the two kinds do not read each other's table.  The function
    rows are the same whatever the relation table holds, or if it is
    missing; the relation rows are the same whatever functions the
    function table holds, as long as it is there. *)
Theorem kinds_read_their_own_table host1 host2 fcinfo b e1 e2 :
  (forall ts r, put_raises host1 ts r = put_raises host2 ts r) ->
  collector host1 (arg0 fcinfo) (arg0 fcinfo) = Some (Some e1) ->
  collector host2 (arg0 fcinfo) (arg0 fcinfo) = Some (Some e2) ->
  (functions e1 = functions e2 ->
   powa_stat_user_functions host1 fcinfo b = powa_stat_user_functions host2 fcinfo b) /\
  (tables e1 = tables e2 -> functions e1 <> None -> functions e2 <> None ->
   powa_stat_all_rel host1 fcinfo b = powa_stat_all_rel host2 fcinfo b).
Proof.
  intros Hp Hc1 Hc2. unfold powa_stat_user_functions, powa_stat_all_rel.
  destruct (caller_ok_dec fcinfo) as [Hok|Hn].
  - rewrite !powa_stat_common_unfold by exact Hok. rewrite Hc1, Hc2.
    unfold emit_rows. split.
    + intros ->. destruct (functions e2); [|reflexivity].
      now rewrite (hash_seq_same_store host1 host2).
    + intros -> H1 H2.
      destruct (functions e1); [|contradiction]. destruct (functions e2); [|contradiction].
      destruct (tables e2); [|reflexivity].
      now rewrite (hash_seq_same_store host1 host2).
  - destruct (check_caller_fails fcinfo b Hn) as (e & He & _).
    unfold powa_stat_common, mbind, M_bind. rewrite He. split; reflexivity.
Qed.

Lemma kinds_read_their_own_table_witness :
  powa_stat_user_functions
    (sample_host (Some (Some (mkDB 16384 None (Some [sample_func 7])))) None)
    (sample_call 16384) (mkBackend 1 None) =
  powa_stat_user_functions
    (sample_host (Some (Some (mkDB 16384 (Some [sample_tab 1]) (Some [sample_func 7])))) None)
    (sample_call 16384) (mkBackend 1 None).
Proof.
  destruct (kinds_read_their_own_table
              (sample_host (Some (Some (mkDB 16384 None (Some [sample_func 7])))) None)
              (sample_host (Some (Some (mkDB 16384 (Some [sample_tab 1])
                                             (Some [sample_func 7])))) None)
              (sample_call 16384) (mkBackend 1 None) _ _
              (fun _ _ => eq_refl) eq_refl eq_refl) as [H _].
  exact (H eq_refl).
Defined.

Lemma tab_row_nulls t c :
  nulls (tab_row t) !! c = Some true ->
  nullable c = true /\ values (tab_row t) !! c = Some DatumZero.
Proof.
  unfold tab_row, tab_fill, fill, set_timestamp; cbn [fold_left].
  destruct (vacuum_timestamp t =? 0), (autovac_vacuum_timestamp t =? 0),
    (analyze_timestamp t =? 0), (autovac_analyze_timestamp t =? 0);
    do 22 (try destruct c as [|c]); cbn; intros H;
    first [discriminate H | split; reflexivity].
Qed.

Lemma tab_row_lengths t :
  length (values (tab_row t)) = POWA_STAT_TAB_COLS /\
  length (nulls (tab_row t)) = POWA_STAT_TAB_COLS.
Proof.
  unfold tab_row, tab_fill, fill, set_timestamp; cbn [fold_left].
  destruct (vacuum_timestamp t =? 0), (autovac_vacuum_timestamp t =? 0),
    (analyze_timestamp t =? 0), (autovac_analyze_timestamp t =? 0);
    split; reflexivity.
Qed.

(** X15: the shape of the rows.  A function row has 4 columns, none of
    them null.  A relation row has 21 columns; a column of it is null
    only if it is one of the four timestamps (columns 13, 15, 17, 19),
    and a null column carries the zero the arrays were cleared with. *)
Theorem only_timestamps_can_be_null host fcinfo kind b rows b' r :
  powa_stat_common host fcinfo kind b = Return rows b' ->
  In r rows ->
  match kind with
  | POWA_STAT_FUNCTION =>
      length (values r) = POWA_STAT_FUNC_COLS /\
      nulls r = [false; false; false; false]
  | POWA_STAT_TABLE =>
      length (values r) = POWA_STAT_TAB_COLS /\
      length (nulls r) = POWA_STAT_TAB_COLS /\
      forall c, nulls r !! c = Some true ->
                nullable c = true /\ values r !! c = Some DatumZero
  end.
Proof.
  intros H Hin. apply returns_rows in H as (_ & dbentry & _ & Hrows).
  destruct dbentry as [e|]; [|subst rows; contradiction].
  destruct (functions e); [|subst rows; contradiction].
  destruct kind.
  - subst rows. apply in_map_iff in Hin as (f & <- & _). split; reflexivity.
  - destruct Hrows as (tabs & _ & ->).
    apply in_map_iff in Hin as (t & <- & _).
    destruct (tab_row_lengths t) as [Hv Hn].
    split; [exact Hv|]. split; [exact Hn|]. apply tab_row_nulls.
Qed.

Lemma only_timestamps_can_be_null_witness :
  let r := tab_row (sample_tab 16385) in
  nulls r !! 13%nat = Some true /\ values r !! 13%nat = Some DatumZero /\
  length (values r) = 21%nat.
Proof.
  cbv zeta.
  pose proof (only_timestamps_can_be_null
                (sample_host (Some (Some (three_relations (Some [])))) None)
                (sample_call 16384) POWA_STAT_TABLE (mkBackend 1 None)
                (map tab_row [sample_tab 16385; sample_tab 16386; sample_tab 16387])
                (mkBackend 1 None) (tab_row (sample_tab 16385)) eq_refl
                (or_introl eq_refl)) as (Hlen & _ & Hnull).
  split; [reflexivity|]. split; [|exact Hlen].
  exact (proj2 (Hnull 13%nat eq_refl)).
Defined.

Lemma land_materialize m :
  Z.land m SFRM_Materialize = if Z.testbit m 1 then SFRM_Materialize else 0.
Proof.
  unfold SFRM_Materialize. apply Z.bits_inj'. intros n Hn.
  rewrite Z.land_spec. destruct (Z.eq_dec n 1) as [->|Hne].
  - destruct (Z.testbit m 1); reflexivity.
  - change 2 with (2 ^ 1) at 1.
    rewrite (Z.pow2_bits_false 1 n) by congruence. rewrite andb_false_r.
    destruct (Z.testbit m 1).
    + change 2 with (2 ^ 1). now rewrite (Z.pow2_bits_false 1 n) by congruence.
    + now rewrite Z.bits_0.
Qed.

(** X16: which error a caller gets.  The checks run in the order of the
    source and the first that fails decides: no [ReturnSetInfo] node is
    "cannot accept a set" whatever else is wrong; then a caller whose
    [allowedModes] lacks the bit of [SFRM_Materialize] (bit 1, the other
    bits do not matter) is "materialize mode required"; only then is the
    result type looked at.  In each case the backend is untouched. *)
Theorem first_failing_check_decides host fcinfo kind b :
  (resultinfo fcinfo = None ->
   powa_stat_common host fcinfo kind b = Raise CannotAcceptSet b) /\
  (forall r, resultinfo fcinfo = Some r ->
     (type r <> T_ReturnSetInfo ->
      powa_stat_common host fcinfo kind b = Raise CannotAcceptSet b) /\
     (type r = T_ReturnSetInfo -> Z.testbit (allowedModes r) 1 = false ->
      powa_stat_common host fcinfo kind b = Raise MaterializeNotAllowed b) /\
     (type r = T_ReturnSetInfo -> Z.testbit (allowedModes r) 1 = true ->
      call_result_type fcinfo <> TYPEFUNC_COMPOSITE ->
      powa_stat_common host fcinfo kind b = Raise RowTypeRequired b) /\
     (type r = T_ReturnSetInfo -> Z.testbit (allowedModes r) 1 = true ->
      call_result_type fcinfo = TYPEFUNC_COMPOSITE -> caller_ok fcinfo)).
Proof.
  split.
  - intros Hr.
    unfold powa_stat_common, check_caller, mbind, M_bind, mret, M_ret, raise.
    now rewrite Hr.
  - intros r Hr. split; [|split; [|split]].
    + intros Ht.
      unfold powa_stat_common, check_caller, mbind, M_bind, mret, M_ret, raise, IsA.
      rewrite Hr. destruct (type r); [contradiction | reflexivity].
    + intros Ht Hbit.
      unfold powa_stat_common, check_caller, mbind, M_bind, mret, M_ret, raise, IsA.
      now rewrite Hr, Ht, land_materialize, Hbit.
    + intros Ht Hbit Hc.
      unfold powa_stat_common, check_caller, mbind, M_bind, mret, M_ret, raise, IsA.
      rewrite Hr, Ht, land_materialize, Hbit. cbn.
      destruct (call_result_type fcinfo); [reflexivity | contradiction | reflexivity..].
    + intros Ht Hbit Hc. split; [|exact Hc].
      exists r. split; [exact Hr|]. split; [exact Ht|].
      rewrite land_materialize, Hbit. discriminate.
Qed.
